(** * Session and credential lifecycle of the Instagram download server

    A shallow embedding of [src/instaloader/instaloader_api.py] (the
    [InstagramLoader] wrapper class) and of [src/server/app.py] (the Flask
    request handlers), followed by the properties of the session and
    credential lifecycle that the code does, or does not, have.

    Python objects are modelled as follows.
    - A request body ([request.json]) is a JSON object, a finite map from
      field names to values, or another JSON value, on which the first
      [data.get] of a handler raises ([app.handle]).
    - Exceptions are values; a computation either returns or raises, and it
      threads the process state (the shared loader context, the files on
      disk, the two output streams and a log of the calls made to the
      collaborating libraries).
    - The collaborating libraries (the content-retrieval library behind
      [Instaloader], [Profile] and the exception classes, and the
      cookie-reading library [browser_cookie3]) are not part of the sources:
      their behaviour is a parameter, the record [Externals], which lets
      them act on the shared context only. *)

From stdpp Require Import gmap strings.

Local Open Scope string_scope.

(** ** Python values that travel in request bodies *)

(** A JSON field value as Python sees it.  Numbers are kept by the two
    observations the code makes of them: their truth value and their [str()]
    text.  Arrays and objects as field values are not modelled. *)
Inductive pyval : Type :=
| PNone
| PBool (b : bool)
| PNum (nonzero : bool) (text : string)
| PStr (s : string).

#[global] Instance pyval_eq_dec : EqDecision pyval.
Proof. solve_decision. Defined.

(** Python truth value ([if x:], [not x]). *)
Definition truthy (v : pyval) : bool :=
  match v with
  | PNone => false
  | PBool b => b
  | PNum nz _ => nz
  | PStr s => negb (bool_decide (s = ""))
  end.

(** [str(v)], as an f-string inserts it. *)
Definition py_str (v : pyval) : string :=
  match v with
  | PNone => "None"
  | PBool true => "True"
  | PBool false => "False"
  | PNum _ t => t
  | PStr s => s
  end.

(** [needle in hay] on Python strings. *)
Fixpoint contains (needle hay : string) : bool :=
  String.prefix needle hay ||
  match hay with
  | EmptyString => false
  | String _ rest => contains needle rest
  end.

(** ** Exceptions *)

(** The exception classes the two files name, the built-in ones that the
    interpreter raises in them, and any other class a collaborator raises. *)
Inductive exn_class : Type :=
| Exception
| AttributeError
| AbortDownloadException
| BadCredentialsException
| InstaloaderException
| InvalidArgumentException
| LoginException
| ProfileNotExistsException
| TwoFactorAuthRequiredException
| OtherClass (name : string).

#[global] Instance exn_class_eq_dec : EqDecision exn_class.
Proof. solve_decision. Defined.

Record exn : Type := MkExn { exn_type : exn_class; exn_text : string }.

#[global] Instance exn_eq_dec : EqDecision exn.
Proof. solve_decision. Defined.

Inductive Outcome (A : Type) : Type :=
| Ret (a : A)
| Raise (e : exn).
Arguments Ret {A} a.
Arguments Raise {A} e.

(** ** The shared loader context, and the process state *)

(** A cookie as [browser_cookie3] yields it. *)
Record Cookie : Type := MkCookie {
  cookie_domain : string;
  cookie_name : string;
  cookie_value : string }.

(** [loader.loader.context]: the one context all requests share. *)
Record Context : Type := MkContext {
  ctx_username : pyval;
  ctx_cookies : gmap string string }.

(** A resolved profile, as [Profile.from_username] returns it. *)
Record Profile : Type := MkProfile { profile_username : string }.

(** The keyword arguments of [download_profile], in the order of the
    signature (lines 138-144); each field carries the name of its keyword
    after [flag_]. *)
Record Flags : Type := MkFlags {
  flag_download_posts : pyval;
  flag_download_stories : pyval;
  flag_download_highlights : pyval;
  flag_download_tagged : pyval;
  flag_download_reels : pyval;
  flag_download_igtv : pyval;
  flag_fast_update : pyval }.

(** The extraction routines of [browser_cookie3] that the table of
    [_get_cookies_from_browser] refers to (lines 108-119). *)
Inductive bc3_routine : Type :=
| bc3_brave | bc3_chrome | bc3_chromium | bc3_edge | bc3_firefox
| bc3_librewolf | bc3_opera | bc3_opera_gx | bc3_safari | bc3_vivaldi.

#[global] Instance bc3_routine_eq_dec : EqDecision bc3_routine.
Proof. solve_decision. Defined.

(** Calls into the collaborating libraries, logged in the order made. *)
Inductive event : Type :=
| CallLogin (user passwd : pyval)
| CallBrowserCookie3 (routine : bc3_routine) (cookie_file : pyval)
| CallUpdateCookies (cookies : gmap string string)
| CallTestLogin
| CallProfileFromUsername (name : pyval)
| CallDownloadProfile (p : Profile) (f : Flags)
| CallDownloadHashtag (hashtag max_count : pyval)
| CallDownloadStories (ps : list Profile)
| CallClose.

(** The process state.  [files] are the paths [os.path.exists] finds;
    [stdout] and [stderr] hold the lines that the [print] calls of the two
    source files write, and nothing else. *)
Record State : Type := MkState {
  context : Context;
  files : gset string;
  stdout : list string;
  stderr : list string;
  trace : list event }.

(** ** The collaborating libraries *)

(** What the code takes from modules that are not among the sources.
    [subclass c d] tells whether class [c], imported from the library, derives
    from [d] (the class declarations are in the library's exceptions module).
    The calls of the content-retrieval library may read and replace the
    context, and may raise.  [browser_cookie3] knows nothing of the context.

    Assumed, not derived from any source: a library call has no effect on
    [files], on the two streams or on the log of calls, and its result does
    not depend on them.  What the libraries read from disk (a browser's
    cookie database), write to disk (downloaded media) or print themselves
    is outside the model; no statement below is about it. *)
Record Externals : Type := MkExternals {
  bc3_library : bool;
  subclass : exn_class -> exn_class -> bool;
  Instaloader_login : pyval -> pyval -> Context -> Outcome unit * Context;
  Instaloader_test_login : Context -> Outcome pyval;
  browser_cookie3 : bc3_routine -> pyval -> Outcome (list Cookie);
  Profile_from_username : pyval -> Context -> Outcome Profile * Context;
  Instaloader_download_profile :
    Profile -> Flags -> Context -> Outcome unit * Context;
  Instaloader_download_hashtag :
    pyval -> pyval -> Context -> Outcome unit * Context;
  Instaloader_download_stories :
    list Profile -> Context -> Outcome unit * Context;
  Instaloader_close : Context -> Outcome unit * Context }.

(** [isinstance(e, c)].  The built-in classes have the interpreter's
    hierarchy; for the others the library's declarations decide. *)
Definition isinstance (E : Externals) (e : exn) (c : exn_class) : bool :=
  match exn_type e with
  | Exception => bool_decide (c = Exception)
  | AttributeError =>
      bool_decide (c = AttributeError) || bool_decide (c = Exception)
  | k => bool_decide (c = k) || subclass E k c
  end.

(** [except (c1, c2, ...)]: does the clause match [e]? *)
Definition matches (E : Externals) (e : exn) (classes : list exn_class)
  : bool :=
  existsb (isinstance E e) classes.

(** ** Computations: state passing with exceptions *)

Definition M (A : Type) : Type := State -> Outcome A * State.

Definition ret {A} (a : A) : M A := fun st => (Ret a, st).

Definition raise {A} (e : exn) : M A := fun st => (Raise e, st).

Definition bind {A B} (m : M A) (k : A -> M B) : M B :=
  fun st =>
    match m st with
    | (Ret a, st') => k a st'
    | (Raise e, st') => (Raise e, st')
    end.

Declare Scope py_scope.
Delimit Scope py_scope with py.
Notation "x <- m ;; k" := (bind m (fun x => k))
  (at level 100, m at next level, right associativity) : py_scope.
Notation "m ;; k" := (bind m (fun _ => k))
  (at level 100, right associativity) : py_scope.
Local Open Scope py_scope.

(** [try: body except ...: handler].  [clauses e] is the handler of the
    first clause that matches [e], if any; an exception no clause matches
    goes on to the caller, with the state as the body left it. *)
Definition try_except {A} (body : M A) (clauses : exn -> option (M A)) : M A :=
  fun st =>
    match body st with
    | (Ret a, st') => (Ret a, st')
    | (Raise e, st') =>
        match clauses e with
        | Some handler => handler st'
        | None => (Raise e, st')
        end
    end.

Definition add_stdout (line : string) (st : State) : State :=
  MkState (context st) (files st) (stdout st ++ [line]) (stderr st) (trace st).

Definition add_stderr (line : string) (st : State) : State :=
  MkState (context st) (files st) (stdout st) (stderr st ++ [line]) (trace st).

Definition add_trace (ev : event) (st : State) : State :=
  MkState (context st) (files st) (stdout st) (stderr st) (trace st ++ [ev]).

Definition set_context (c : Context) (st : State) : State :=
  MkState c (files st) (stdout st) (stderr st) (trace st).

(** [print(line)] and [print(line, file=sys.stderr)]. *)
Definition print (line : string) : M unit :=
  fun st => (Ret tt, add_stdout line st).

Definition print_stderr (line : string) : M unit :=
  fun st => (Ret tt, add_stderr line st).

Definition log (ev : event) : M unit :=
  fun st => (Ret tt, add_trace ev st).

(** A call that may read and replace the context. *)
Definition on_context {A} (f : Context -> Outcome A * Context) : M A :=
  fun st => let '(r, c) := f (context st) in (r, set_context c st).

(** A call that only reads the context. *)
Definition read_context {A} (f : Context -> Outcome A) : M A :=
  fun st => (f (context st), st).

Definition of_outcome {A} (r : Outcome A) : M A := fun st => (r, st).

Definition os_path_exists (path : string) : M bool :=
  fun st => (Ret (bool_decide (path ∈ files st)), st).

(** [os.path.join(a, b)] with the POSIX separator. *)
Definition os_path_join (a b : string) : string :=
  if String.prefix "/" b then b
  else if bool_decide (a = "") || String.prefix "/" (String.rev a)
       then a +:+ b
       else a +:+ "/" +:+ b.

(** ** Objects and attribute lookup *)

(** The object bound to [loader] in [app.py], seen through the attributes
    the handlers look up on it.  An attribute the object's class does not
    define is [None]; looking it up raises [AttributeError]. *)
Record LoaderObj : Type := MkLoaderObj {
  class_name : string;
  attr_login : option (pyval -> pyval -> M bool);
  attr_load_session_from_file : option (pyval -> string -> M unit);
  attr_save_session_to_file : option (string -> M unit);
  attr_load_session_from_browser : option (pyval -> pyval -> M bool);
  attr_download_profile : option (pyval -> Flags -> M bool);
  attr_download_hashtag : option (pyval -> pyval -> M bool);
  attr_download_stories : option (pyval -> M bool);
  attr_close : option (M unit) }.

Definition no_attribute (cls attr : string) : exn :=
  MkExn AttributeError
        ("'" +:+ cls +:+ "' object has no attribute '" +:+ attr +:+ "'").

(** [obj.attr]: the attribute, or [AttributeError]. *)
Definition getattr {A} (obj : LoaderObj) (attr : string)
    (field : LoaderObj -> option A) : M A :=
  match field obj with
  | Some a => ret a
  | None => raise (no_attribute (class_name obj) attr)
  end.

(** ** [instaloader_api.py]: the class [InstagramLoader] *)

Module InstagramLoader.

(** The table [supported_browsers] (lines 108-119). *)
Definition supported_browsers : gmap string bc3_routine :=
  list_to_map
    [ ("brave", bc3_brave); ("chrome", bc3_chrome);
      ("chromium", bc3_chromium); ("edge", bc3_edge);
      ("firefox", bc3_firefox); ("librewolf", bc3_librewolf);
      ("opera", bc3_opera); ("opera_gx", bc3_opera_gx);
      ("safari", bc3_safari); ("vivaldi", bc3_vivaldi) ].

(** [supported_browsers[browser]], or [None] when
    [browser not in supported_browsers].  A key that is not a string equals
    none of the keys of the table. *)
Definition lookup_browser (browser : pyval) : option bc3_routine :=
  match browser with
  | PStr s => supported_browsers !! s
  | _ => None
  end.

(** The loop of lines 124-128: later cookies of the same name overwrite
    earlier ones. *)
Definition instagram_cookies (browser_cookies : list Cookie)
  : gmap string string :=
  foldl (fun cookies cookie =>
           if contains "instagram.com" (cookie_domain cookie)
           then <[cookie_name cookie := cookie_value cookie]> cookies
           else cookies)
        ∅ browser_cookies.

(** Modelled from the spec: [InstaloaderContext.update_cookies] belongs to
    the library's context module, which is not among the sources.  It
    "installs the cookie set into a transport context": the cookies given
    are added to the jar, replacing those of the same name. *)
Definition update_cookies (cookies : gmap string string) : M unit :=
  log (CallUpdateCookies cookies) ;;
  on_context (fun c =>
    (Ret tt, MkContext (ctx_username c) (cookies ∪ ctx_cookies c))).

(** [self.loader.context.username = username] (line 87). *)
Definition set_username (username : pyval) : M unit :=
  on_context (fun c => (Ret tt, MkContext username (ctx_cookies c))).

Section Methods.

Variable E : Externals.

(** Lines 49-65. *)
Definition login (username password : pyval) : M bool :=
  try_except
    (log (CallLogin username password) ;;
     on_context (Instaloader_login E username password) ;;
     ret true)
    (fun e =>
       if matches E e [BadCredentialsException;
                       TwoFactorAuthRequiredException; LoginException]
       then Some (print_stderr ("Login failed: " +:+ exn_text e) ;;
                  ret false)
       else None).

(** Lines 97-133. *)
Definition _get_cookies_from_browser (browser cookiefile : pyval)
  : M (gmap string string) :=
  match lookup_browser browser with
  | None =>
      raise (MkExn InvalidArgumentException
                   ("Unsupported browser: " +:+ py_str browser))
  | Some routine =>
      log (CallBrowserCookie3 routine cookiefile) ;;
      browser_cookies <- of_outcome (browser_cookie3 E routine cookiefile) ;;
      let cookies := instagram_cookies browser_cookies in
      if bool_decide (cookies = ∅)
      then raise (MkExn LoginException
                        ("No Instagram cookies found in "
                         +:+ py_str browser +:+ "."))
      else ret cookies
  end.

(** Lines 67-95. *)
Definition load_session_from_browser (browser cookiefile : pyval) : M bool :=
  if negb (bc3_library E) then
    print_stderr
      "browser_cookie3 library is required to load cookies from browsers." ;;
    ret false
  else
    try_except
      (cookies <- _get_cookies_from_browser browser cookiefile ;;
       update_cookies cookies ;;
       log CallTestLogin ;;
       username <- read_context (Instaloader_test_login E) ;;
       if truthy username then
         set_username username ;;
         print ("Logged in as " +:+ py_str username
                +:+ " using cookies from " +:+ py_str browser +:+ ".") ;;
         ret true
       else
         print_stderr "Failed to log in using cookies." ;;
         ret false)
      (fun e =>
         if matches E e [Exception]
         then Some (print_stderr ("Failed to load cookies: " +:+ exn_text e) ;;
                    ret false)
         else None).

(** Lines 135-180. *)
Definition download_profile (profile_name : pyval) (flags : Flags) : M bool :=
  try_except
    (log (CallProfileFromUsername profile_name) ;;
     profile <- on_context (Profile_from_username E profile_name) ;;
     log (CallDownloadProfile profile flags) ;;
     on_context (Instaloader_download_profile E profile flags) ;;
     ret true)
    (fun e =>
       if matches E e [ProfileNotExistsException]
       then Some (print_stderr ("Profile not found: " +:+ exn_text e) ;;
                  ret false)
       else if matches E e [InstaloaderException]
       then Some (print_stderr ("Failed to download profile: "
                                +:+ exn_text e) ;;
                  ret false)
       else None).

(** Lines 182-198. *)
Definition download_hashtag (hashtag max_count : pyval) : M bool :=
  try_except
    (log (CallDownloadHashtag hashtag max_count) ;;
     on_context (Instaloader_download_hashtag E hashtag max_count) ;;
     ret true)
    (fun e =>
       if matches E e [InstaloaderException]
       then Some (print_stderr ("Failed to download hashtag: "
                                +:+ exn_text e) ;;
                  ret false)
       else None).

(** Lines 200-216. *)
Definition download_stories (profile_name : pyval) : M bool :=
  try_except
    (log (CallProfileFromUsername profile_name) ;;
     profile <- on_context (Profile_from_username E profile_name) ;;
     log (CallDownloadStories [profile]) ;;
     on_context (Instaloader_download_stories E [profile]) ;;
     ret true)
    (fun e =>
       if matches E e [InstaloaderException]
       then Some (print_stderr ("Failed to download stories: "
                                +:+ exn_text e) ;;
                  ret false)
       else None).

(** Lines 218-220. *)
Definition close : M unit :=
  log CallClose ;;
  on_context (Instaloader_close E).

End Methods.

(** [InstagramLoader()]: an object with the attributes of lines 44-220.  The
    class defines neither [load_session_from_file] nor
    [save_session_to_file], and it has no base class to inherit them from. *)
Definition new (E : Externals) : LoaderObj :=
  {| class_name := "InstagramLoader";
     attr_login := Some (login E);
     attr_load_session_from_file := None;
     attr_save_session_to_file := None;
     attr_load_session_from_browser := Some (load_session_from_browser E);
     attr_download_profile := Some (download_profile E);
     attr_download_hashtag := Some (download_hashtag E);
     attr_download_stories := Some (download_stories E);
     attr_close := Some (close E) |}.

End InstagramLoader.

(** ** [app.py]: the request handlers *)

Module app.

(** What a handler returns: [jsonify({"status": .., "message": ..}), code]. *)
Record Response : Type := MkResponse {
  status : string;
  message : string;
  status_code : nat }.

#[global] Instance Response_eq_dec : EqDecision Response.
Proof. solve_decision. Defined.

Definition jsonify (st msg : string) (code : nat) : Response :=
  MkResponse st msg code.

(** [data.get(key)] and [data.get(key, default)]. *)
Definition get (data : gmap string pyval) (key : string) : pyval :=
  default PNone (data !! key).

Definition get_default (data : gmap string pyval) (key : string)
    (dflt : pyval) : pyval :=
  default dflt (data !! key).

Definition SESSION_DIR : string := "sessions".

(** Lines 14-18. *)
Definition get_session_file (username : pyval) : string :=
  os_path_join SESSION_DIR (py_str username +:+ ".session").

(** The seven options of [/download_profile] with their defaults
    (lines 100-106). *)
Definition flags_of (data : gmap string pyval) : Flags :=
  {| flag_download_posts := get_default data "download_posts" (PBool true);
     flag_download_stories :=
       get_default data "download_stories" (PBool false);
     flag_download_highlights :=
       get_default data "download_highlights" (PBool false);
     flag_download_tagged := get_default data "download_tagged" (PBool false);
     flag_download_reels := get_default data "download_reels" (PBool false);
     flag_download_igtv := get_default data "download_igtv" (PBool false);
     flag_fast_update := get_default data "fast_update" (PBool false) |}.

Section Handlers.

Variable E : Externals.
Variable loader : LoaderObj.

(** Lines 21-47. *)
Definition login (data : gmap string pyval) : M Response :=
  let username := get data "username" in
  let password := get data "password" in
  if negb (truthy username) || negb (truthy password) then
    ret (jsonify "failed" "Username and password are required." 400)
  else
    let session_file := get_session_file username in
    found <- os_path_exists session_file ;;
    reused <-
      (if found then
         try_except
           (load <- getattr loader "load_session_from_file"
                            attr_load_session_from_file ;;
            load username session_file ;;
            ret (Some (jsonify "success"
                               "Logged in using existing session." 200)))
           (fun e =>
              if matches E e [Exception]
              then Some (print ("Failed to load session: " +:+ exn_text e) ;;
                         ret None)
              else None)
       else ret None) ;;
    match reused with
    | Some response => ret response
    | None =>
        fresh <- getattr loader "login" attr_login ;;
        ok <- fresh username password ;;
        if ok then
          save <- getattr loader "save_session_to_file"
                          attr_save_session_to_file ;;
          save session_file ;;
          ret (jsonify "success" "Logged in successfully." 200)
        else
          ret (jsonify "failed" "Login failed. Check your credentials." 401)
    end.

(** Lines 50-68. *)
Definition reattempt_login (data : gmap string pyval) : M Response :=
  let username := get data "username" in
  let password := get data "password" in
  if negb (truthy username) || negb (truthy password) then
    ret (jsonify "failed" "Username and password are required." 400)
  else
    fresh <- getattr loader "login" attr_login ;;
    ok <- fresh username password ;;
    if ok then
      let session_file := get_session_file username in
      save <- getattr loader "save_session_to_file"
                      attr_save_session_to_file ;;
      save session_file ;;
      ret (jsonify "success" "Re-login successful." 200)
    else
      ret (jsonify "failed" "Re-login failed. Check your credentials." 401).

(** Lines 71-90. *)
Definition load_session_from_browser (data : gmap string pyval)
  : M Response :=
  let username := get data "username" in
  let browser := get data "browser" in
  let cookiefile := get data "cookiefile" in
  if negb (truthy username) || negb (truthy browser) then
    ret (jsonify "failed" "Username and browser name are required." 400)
  else
    import <- getattr loader "load_session_from_browser"
                      attr_load_session_from_browser ;;
    ok <- import browser cookiefile ;;
    if ok then
      let session_file := get_session_file username in
      save <- getattr loader "save_session_to_file"
                      attr_save_session_to_file ;;
      save session_file ;;
      ret (jsonify "success"
                   ("Session loaded from " +:+ py_str browser +:+ ".") 200)
    else
      ret (jsonify "failed" "Failed to load session from browser." 400).

(** Lines 93-123. *)
Definition download_profile (data : gmap string pyval) : M Response :=
  let profile_name := get data "profile_name" in
  let flags := flags_of data in
  if negb (truthy profile_name) then
    ret (jsonify "failed" "Profile name is required." 400)
  else
    download <- getattr loader "download_profile" attr_download_profile ;;
    ok <- download profile_name flags ;;
    if ok then
      ret (jsonify "success"
                   ("Downloaded content from " +:+ py_str profile_name
                    +:+ ".") 200)
    else
      ret (jsonify "failed"
                   ("Failed to download content from "
                    +:+ py_str profile_name +:+ ".") 400).

(** Lines 126-141. *)
Definition download_hashtag (data : gmap string pyval) : M Response :=
  let hashtag := get data "hashtag" in
  let max_count := get data "max_count" in
  if negb (truthy hashtag) then
    ret (jsonify "failed" "Hashtag is required." 400)
  else
    download <- getattr loader "download_hashtag" attr_download_hashtag ;;
    ok <- download hashtag max_count ;;
    if ok then
      ret (jsonify "success"
                   ("Downloaded posts from #" +:+ py_str hashtag +:+ ".") 200)
    else
      ret (jsonify "failed"
                   ("Failed to download posts from #" +:+ py_str hashtag
                    +:+ ".") 400).

(** Lines 144-158. *)
Definition download_stories (data : gmap string pyval) : M Response :=
  let profile_name := get data "profile_name" in
  if negb (truthy profile_name) then
    ret (jsonify "failed" "Profile name is required." 400)
  else
    download <- getattr loader "download_stories" attr_download_stories ;;
    ok <- download profile_name ;;
    if ok then
      ret (jsonify "success"
                   ("Downloaded stories from " +:+ py_str profile_name
                    +:+ ".") 200)
    else
      ret (jsonify "failed"
                   ("Failed to download stories from "
                    +:+ py_str profile_name +:+ ".") 400).

(** Lines 161-167. *)
Definition close (data : gmap string pyval) : M Response :=
  shut <- getattr loader "close" attr_close ;;
  shut ;;
  ret (jsonify "success" "Loader closed successfully." 200).

End Handlers.

(** Line 6: [loader = InstagramLoader()]. *)
Definition loader (E : Externals) : LoaderObj := InstagramLoader.new E.

(** The routes of the application (the [@app.route] decorators). *)
Inductive route : Type :=
| r_login | r_reattempt_login | r_load_session_from_browser
| r_download_profile | r_download_hashtag | r_download_stories | r_close.

(** A request served by the application as the file builds it. *)
Definition serve (E : Externals) (r : route) (data : gmap string pyval)
  : M Response :=
  match r with
  | r_login => login E (loader E) data
  | r_reattempt_login => reattempt_login (loader E) data
  | r_load_session_from_browser => load_session_from_browser (loader E) data
  | r_download_profile => download_profile (loader E) data
  | r_download_hashtag => download_hashtag (loader E) data
  | r_download_stories => download_stories (loader E) data
  | r_close => close (loader E) data
  end.

(** [request.json]: a JSON object, or another JSON value, of which only the
    name of its Python type matters ([NoneType] for [null], [list], [str],
    [int], [float], [bool]). *)
Inductive json_body : Type :=
| JObject (data : gmap string pyval)
| JOther (type_name : string).

(** A request as a handler receives it.  Every handler but [close] begins
    with [data = request.json] and a call of [data.get]; on a value that is
    not an object the lookup of [get] raises [AttributeError] before
    anything else is done.  The definitions of the handlers above are their
    bodies for [data] an object.  [close] does not read the body. *)
Definition handle (E : Externals) (r : route) (body : json_body)
  : M Response :=
  match body with
  | JObject data => serve E r data
  | JOther type_name =>
      match r with
      | r_close => serve E r_close ∅
      | _ => raise (no_attribute type_name "get")
      end
  end.

End app.

(** ** Concrete libraries and requests for the examples *)

Module Examples.

(** A class hierarchy for the examples: the two specific login errors derive
    from [LoginException], every library class but [AbortDownloadException]
    derives from [InstaloaderException], and every class is an
    [Exception]. *)
Definition hierarchy (c d : exn_class) : bool :=
  match d with
  | Exception => true
  | InstaloaderException =>
      match c with
      | BadCredentialsException | InvalidArgumentException | LoginException
      | ProfileNotExistsException | TwoFactorAuthRequiredException => true
      | _ => false
      end
  | LoginException =>
      match c with
      | BadCredentialsException | TwoFactorAuthRequiredException => true
      | _ => false
      end
  | _ => false
  end.

(** An account service with three accounts: [alice] and [bob] with the
    password [correct], [carol] with a second factor switched on.  A login
    with [offline] as password stands for a request made while the network
    is down. *)
Definition demo_login (user passwd : pyval) (c : Context)
  : Outcome unit * Context :=
  if bool_decide (passwd = PStr "offline") then
    (Raise (MkExn (OtherClass "ConnectionError") "Network is unreachable"), c)
  else if bool_decide (user = PStr "carol") then
    (Raise (MkExn TwoFactorAuthRequiredException
                  "Login error: two-factor authentication required."), c)
  else if bool_decide (user = PStr "alice") || bool_decide (user = PStr "bob")
  then
    if bool_decide (passwd = PStr "correct")
    then (Ret tt, MkContext user (ctx_cookies c))
    else (Raise (MkExn BadCredentialsException
                       "Login error: Wrong password."), c)
  else (Raise (MkExn LoginException "Login error: User does not exist."), c).

(** The probe recognises the session cookie [bobs-session] as [bob]'s and
    no other. *)
Definition demo_test_login (c : Context) : Outcome pyval :=
  if bool_decide (ctx_cookies c !! "sessionid" = Some "bobs-session")
  then Ret (PStr "bob")
  else Ret PNone.

(** Chrome holds [bob]'s session, Firefox an expired one, Edge no cookie of
    the platform; reading any other browser fails. *)
Definition demo_browser_cookie3 (routine : bc3_routine) (cookie_file : pyval)
  : Outcome (list Cookie) :=
  match routine with
  | bc3_chrome =>
      Ret [ MkCookie ".instagram.com" "sessionid" "bobs-session";
            MkCookie ".example.org" "theme" "dark" ]
  | bc3_firefox => Ret [ MkCookie ".instagram.com" "sessionid" "expired" ]
  | bc3_edge => Ret [ MkCookie ".example.org" "theme" "dark" ]
  | _ => Raise (MkExn (OtherClass "BrowserCookieError")
                      "Failed to find cookie file")
  end.

(** Only the profile [bob] exists. *)
Definition demo_from_username (name : pyval) (c : Context)
  : Outcome Profile * Context :=
  if bool_decide (name = PStr "bob") then (Ret (MkProfile "bob"), c)
  else (Raise (MkExn ProfileNotExistsException
                     ("Profile " +:+ py_str name +:+ " does not exist.")), c).

Definition demo (with_bc3 : bool) : Externals :=
  {| bc3_library := with_bc3;
     subclass := hierarchy;
     Instaloader_login := demo_login;
     Instaloader_test_login := demo_test_login;
     browser_cookie3 := demo_browser_cookie3;
     Profile_from_username := demo_from_username;
     Instaloader_download_profile := fun _ _ c => (Ret tt, c);
     Instaloader_download_hashtag := fun _ _ c => (Ret tt, c);
     Instaloader_download_stories := fun _ c => (Ret tt, c);
     Instaloader_close := fun c => (Ret tt, c) |}.

(** A process that has served no request: a context without user name and
    with an empty cookie jar (the cookies a new [Instaloader] sets up for
    anonymous use are left out), and on disk the directory of lines 9-11
    together with the session files given. *)
Definition fresh (session_files : gset string) : State :=
  {| context := MkContext PNone ∅;
     files := {[ "sessions" ]} ∪ session_files;
     stdout := [];
     stderr := [];
     trace := [] |}.

Definition credentials (user passwd : string) : gmap string pyval :=
  <[ "username" := PStr user ]> (<[ "password" := PStr passwd ]> ∅).

Definition import_request (user browser : string) : gmap string pyval :=
  <[ "username" := PStr user ]> (<[ "browser" := PStr browser ]> ∅).

End Examples.

(** ** Vocabulary of the properties *)

Import app Examples.

(** What the [except Exception] clause of [load_session_from_browser] makes
    of an exception raised in its body. *)
Definition import_failure (E : Externals) (e : exn) (st : State)
  : Outcome bool * State :=
  if matches E e [Exception]
  then (Ret false, add_stderr ("Failed to load cookies: " +:+ exn_text e) st)
  else (Raise e, st).

(** The context once [cookies] are installed in it. *)
Definition install (cookies : gmap string string) (c : Context) : Context :=
  MkContext (ctx_username c) (cookies ∪ ctx_cookies c).

(** The names of the allow-list, in the words of the specification. *)
Definition allow_list : list string :=
  [ "brave"; "chrome"; "chromium"; "edge"; "firefox"; "librewolf"; "opera";
    "opera_gx"; "safari"; "vivaldi" ].

(** Is the value the string of a name on the allow-list? *)
Definition listed (browser : pyval) : bool :=
  match browser with
  | PStr s => bool_decide (s ∈ allow_list)
  | _ => false
  end.

(** What the two [except] clauses of [download_profile] make of an exception
    raised in its body. *)
Definition download_failure (E : Externals) (e : exn) (st : State)
  : Outcome bool * State :=
  if matches E e [ProfileNotExistsException]
  then (Ret false, add_stderr ("Profile not found: " +:+ exn_text e) st)
  else if matches E e [InstaloaderException]
  then (Ret false,
        add_stderr ("Failed to download profile: " +:+ exn_text e) st)
  else (Raise e, st).

(** The state in which [/login] reaches the fresh login: when a session file
    exists, the attempt to load it has failed on the lookup of
    [load_session_from_file] and has been reported on the output stream. *)
Definition after_reuse_attempt (username : pyval) (st : State) : State :=
  if bool_decide (get_session_file username ∈ files st)
  then add_stdout
         ("Failed to load session: "
          +:+ exn_text (no_attribute "InstagramLoader"
                                     "load_session_from_file")) st
  else st.

(** What the two login routes make of the outcome of the method [login]. *)
Definition login_response (failure : string) (r : Outcome bool * State)
  : Outcome Response * State :=
  match r with
  | (Ret true, st1) =>
      (Raise (no_attribute "InstagramLoader" "save_session_to_file"), st1)
  | (Ret false, st1) => (Ret (MkResponse "failed" failure 401), st1)
  | (Raise e, st1) => (Raise e, st1)
  end.

(** The classes named by the [except] clauses around the library calls a
    route makes through [InstagramLoader]; [close] has no such clause. *)
Definition converted_classes (r : route) : list exn_class :=
  match r with
  | r_login | r_reattempt_login =>
      [BadCredentialsException; TwoFactorAuthRequiredException;
       LoginException]
  | r_load_session_from_browser => [Exception]
  | r_download_profile => [ProfileNotExistsException; InstaloaderException]
  | r_download_hashtag | r_download_stories => [InstaloaderException]
  | r_close => []
  end.

(** Is the cookie one the loop of lines 126-128 keeps? *)
Definition kept (cookie : Cookie) : bool :=
  contains "instagram.com" (cookie_domain cookie).

(** The state with other files on disk. *)
Definition set_files (fs : gset string) (st : State) : State :=
  MkState (context st) fs (stdout st) (stderr st) (trace st).

(** Two states that differ at most in the files on disk. *)
Definition agree (st1 st2 : State) : Prop :=
  context st1 = context st2 /\ stdout st1 = stdout st2
  /\ stderr st1 = stderr st2 /\ trace st1 = trace st2.

(** A computation that does not read the files: run in two states that
    differ at most in the files, it gives the same outcome and leaves states
    that again differ at most in the files. *)
Definition file_blind {A} (m : M A) : Prop :=
  forall st1 st2,
    agree st1 st2 ->
    fst (m st1) = fst (m st2) /\ agree (snd (m st1)) (snd (m st2)).

(** A method that reports every failure it swallows: a return of [False]
    comes with exactly one new line on the error stream, and any other
    outcome with none. *)
Definition reports_failures (m : M bool) : Prop :=
  forall st,
    match fst (m st) with
    | Ret false => exists line, stderr (snd (m st)) = (stderr st ++ [line])%list
    | _ => stderr (snd (m st)) = stderr st
    end.

(** What an [except] clause for [classes] that prints [label] and the text
    of the exception, and returns [False], makes of an exception. *)
Definition reported (E : Externals) (classes : list exn_class)
    (label : string) (e : exn) (st : State) : Outcome bool * State :=
  if matches E e classes
  then (Ret false, add_stderr (label +:+ exn_text e) st)
  else (Raise e, st).

(** The library calls an import can make, in order: none; the extraction
    routine alone; or the routine, the installation of a non-empty set of
    cookies, and the probe. *)
Definition import_calls (cookiefile : pyval) (calls : list event) : Prop :=
  calls = []
  \/ (exists routine, calls = [CallBrowserCookie3 routine cookiefile])
  \/ (exists routine cookies,
        cookies <> ∅
        /\ calls = [CallBrowserCookie3 routine cookiefile;
                    CallUpdateCookies cookies; CallTestLogin]).

(** Does the request carry the fields its route requires? *)
Definition complete (r : route) (data : gmap string pyval) : bool :=
  match r with
  | r_login | r_reattempt_login =>
      truthy (get data "username") && truthy (get data "password")
  | r_load_session_from_browser =>
      truthy (get data "username") && truthy (get data "browser")
  | r_download_profile | r_download_stories =>
      truthy (get data "profile_name")
  | r_download_hashtag => truthy (get data "hashtag")
  | r_close => true
  end.

(** The status code with which a route reports a failure of its library
    call. *)
Definition failure_code (r : route) : nat :=
  match r with
  | r_login | r_reattempt_login => 401
  | _ => 400
  end.

(** A library call that the route makes for this request in this state
    raises [e]. *)
Definition library_raises (E : Externals) (r : route)
    (data : gmap string pyval) (st : State) (e : exn) : Prop :=
  match r with
  | r_login | r_reattempt_login =>
      exists c,
        Instaloader_login E (get data "username") (get data "password")
                          (context st) = (Raise e, c)
  | r_load_session_from_browser =>
      bc3_library E = true
      /\ exists routine,
           InstagramLoader.lookup_browser (get data "browser") = Some routine
           /\ (browser_cookie3 E routine (get data "cookiefile") = Raise e
               \/ exists browser_cookies,
                    browser_cookie3 E routine (get data "cookiefile")
                    = Ret browser_cookies
                    /\ InstagramLoader.instagram_cookies browser_cookies <> ∅
                    /\ Instaloader_test_login E
                         (install
                            (InstagramLoader.instagram_cookies browser_cookies)
                            (context st)) = Raise e)
  | r_download_profile =>
      (exists c,
         Profile_from_username E (get data "profile_name") (context st)
         = (Raise e, c))
      \/ exists p c1 c2,
           Profile_from_username E (get data "profile_name") (context st)
           = (Ret p, c1)
           /\ Instaloader_download_profile E p (flags_of data) c1
              = (Raise e, c2)
  | r_download_hashtag =>
      exists c,
        Instaloader_download_hashtag E (get data "hashtag")
          (get data "max_count") (context st) = (Raise e, c)
  | r_download_stories =>
      (exists c,
         Profile_from_username E (get data "profile_name") (context st)
         = (Raise e, c))
      \/ exists p c1 c2,
           Profile_from_username E (get data "profile_name") (context st)
           = (Ret p, c1)
           /\ Instaloader_download_stories E [p] c1 = (Raise e, c2)
  | r_close => exists c, Instaloader_close E (context st) = (Raise e, c)
  end.

(** ** Properties *)

(** Unfolds the plumbing of computations. *)
Ltac run :=
  unfold serve, loader, InstagramLoader.new, getattr, bind, ret, raise,
    try_except, print, print_stderr, log, on_context, read_context,
    of_outcome, os_path_exists; cbn [class_name attr_login
    attr_load_session_from_file attr_save_session_to_file
    attr_load_session_from_browser attr_download_profile
    attr_download_hashtag attr_download_stories attr_close fst snd].

(** An [AttributeError] is an [Exception], whatever the library declares. *)
Lemma no_attribute_is_Exception E cls attr :
  matches E (no_attribute cls attr) [Exception] = true.
Proof. reflexivity. Qed.

(** It is none of the library's classes. *)
Lemma no_attribute_not_library E cls attr classes :
  Forall (fun c => c <> AttributeError /\ c <> Exception) classes ->
  matches E (no_attribute cls attr) classes = false.
Proof.
  induction 1 as [|c cs [H1 H2] _ IH]; [reflexivity|].
  unfold matches in *. cbn [existsb]. rewrite IH, orb_false_r.
  unfold isinstance, no_attribute; cbn [exn_type].
  rewrite !bool_decide_eq_false_2; done.
Qed.

(** *** Requests without credentials *)

(** C9, amended.  A request to [/login] or [/reattempt_login] whose body is
    a JSON object in which the [username] or the [password] field is missing
    or empty is answered with status code 400 and status [failed], and it
    leaves the whole process state as it was: no file is created or changed,
    the context is not touched and no call to the libraries is made. *)
Theorem missing_credentials_rejected
    (E : Externals) (data : gmap string pyval) (st : State) :
  truthy (get data "username") = false \/
  truthy (get data "password") = false ->
  handle E r_login (JObject data) st =
    (Ret (MkResponse "failed" "Username and password are required." 400), st)
  /\ handle E r_reattempt_login (JObject data) st =
    (Ret (MkResponse "failed" "Username and password are required." 400), st).
Proof.
  intros H. unfold handle, serve, login, reattempt_login.
  assert (negb (truthy (get data "username"))
          || negb (truthy (get data "password")) = true) as ->.
  { destruct H as [-> | ->]; [reflexivity | apply orb_true_r]. }
  split; reflexivity.
Qed.

Lemma missing_credentials_rejected_witness :
  handle (demo true) r_login (JObject (<[ "username" := PStr "alice" ]> ∅))
         (fresh {[ "sessions/alice.session" ]})
  = (Ret (MkResponse "failed" "Username and password are required." 400),
     fresh {[ "sessions/alice.session" ]}).
Proof.
  apply (missing_credentials_rejected (demo true)
           (<[ "username" := PStr "alice" ]> ∅)
           (fresh {[ "sessions/alice.session" ]})).
  right. reflexivity.
Defined.

(** C9, as stated, fails.  A request whose body is [null], or an empty
    array, carries neither field; on both routes the handler raises
    [AttributeError] at its first [data.get] instead of answering 400. *)
Lemma body_without_fields_raises :
  handle (demo true) r_login (JOther "NoneType") (fresh ∅)
  = (Raise (MkExn AttributeError
              "'NoneType' object has no attribute 'get'"), fresh ∅)
  /\ handle (demo true) r_reattempt_login (JOther "list") (fresh ∅)
     = (Raise (MkExn AttributeError "'list' object has no attribute 'get'"),
        fresh ∅).
Proof. split; reflexivity. Qed.

(** *** The cookie-reading library is absent *)

(** C10.  When [browser_cookie3] could not be imported, the method
    [load_session_from_browser] returns [False] for every browser and cookie
    file, having only written a line to the error stream: it reads no
    cookies and does not touch the context.  The route
    [/load_session_from_browser] then answers every request with status code
    400, and the context, the files and the log of library calls are as
    before. *)
Theorem import_without_bc3
    (E : Externals) (browser cookiefile : pyval)
    (data : gmap string pyval) (st : State) :
  bc3_library E = false ->
  InstagramLoader.load_session_from_browser E browser cookiefile st =
    (Ret false,
     add_stderr
       "browser_cookie3 library is required to load cookies from browsers."
       st)
  /\ exists resp st',
       serve E r_load_session_from_browser data st = (Ret resp, st')
       /\ status_code resp = 400 /\ status resp = "failed"
       /\ context st' = context st /\ files st' = files st
       /\ trace st' = trace st.
Proof.
  intros Hbc3.
  assert (forall b c s,
    InstagramLoader.load_session_from_browser E b c s =
    (Ret false,
     add_stderr
       "browser_cookie3 library is required to load cookies from browsers."
       s)) as Hmethod.
  { intros b c s. unfold InstagramLoader.load_session_from_browser.
    rewrite Hbc3. reflexivity. }
  split; [apply Hmethod|].
  unfold serve, load_session_from_browser.
  destruct (negb (truthy (get data "username"))
            || negb (truthy (get data "browser"))).
  - eexists _, st. repeat split; reflexivity.
  - run. rewrite Hmethod. eexists _, _. repeat split; reflexivity.
Qed.

Lemma import_without_bc3_witness :
  InstagramLoader.load_session_from_browser
    (demo false) (PStr "chrome") PNone (fresh ∅) =
  (Ret false,
   add_stderr
     "browser_cookie3 library is required to load cookies from browsers."
     (fresh ∅)).
Proof.
  apply (import_without_bc3 (demo false) (PStr "chrome") PNone
           (import_request "alice" "chrome") (fresh ∅)).
  reflexivity.
Defined.

(** *** Password login *)

(** C6, amended.  When the library's login call raises an exception of one
    of the classes [BadCredentialsException],
    [TwoFactorAuthRequiredException] and [LoginException], the method
    [login] returns [False] after writing [Login failed: ] and the text of
    the exception to the error stream; the return value is the same for the
    three classes.  An exception of any other class goes on to the caller.
    In both cases the context is as the library's call left it. *)
Theorem login_failures
    (E : Externals) (username password : pyval) (st : State)
    (e : exn) (c : Context) :
  Instaloader_login E username password (context st) = (Raise e, c) ->
  let st' := set_context c (add_trace (CallLogin username password) st) in
  (matches E e [BadCredentialsException; TwoFactorAuthRequiredException;
                LoginException] = true ->
   InstagramLoader.login E username password st =
     (Ret false, add_stderr ("Login failed: " +:+ exn_text e) st'))
  /\ (matches E e [BadCredentialsException; TwoFactorAuthRequiredException;
                   LoginException] = false ->
      InstagramLoader.login E username password st = (Raise e, st')).
Proof.
  intros Hlib st'.
  unfold InstagramLoader.login. run.
  cbn [context add_trace]. rewrite Hlib.
  split; intros ->; reflexivity.
Qed.

Lemma login_failures_witness :
  InstagramLoader.login (demo true) (PStr "carol") (PStr "correct") (fresh ∅)
  = (Ret false,
     add_stderr
       "Login failed: Login error: two-factor authentication required."
       (set_context (MkContext PNone ∅)
          (add_trace (CallLogin (PStr "carol") (PStr "correct")) (fresh ∅)))).
Proof.
  apply (login_failures (demo true) (PStr "carol") (PStr "correct") (fresh ∅)
           (MkExn TwoFactorAuthRequiredException
                  "Login error: two-factor authentication required.")
           (MkContext PNone ∅)); reflexivity.
Defined.

(** C6, as stated, fails: a required second factor is not surfaced as a
    failure of its own.  A wrong password and a required second factor give
    the same return value of [login], and the same response of [/login]. *)
Lemma login_failures_not_distinguished :
  fst (InstagramLoader.login (demo true) (PStr "alice") (PStr "wrong")
         (fresh ∅)) = Ret false
  /\ fst (InstagramLoader.login (demo true) (PStr "carol") (PStr "correct")
            (fresh ∅)) = Ret false
  /\ fst (serve (demo true) r_login (credentials "alice" "wrong") (fresh ∅))
     = fst (serve (demo true) r_login (credentials "carol" "correct")
              (fresh ∅))
  /\ fst (Instaloader_login (demo true) (PStr "alice") (PStr "wrong")
            (MkContext PNone ∅))
     = Raise (MkExn BadCredentialsException "Login error: Wrong password.")
  /\ fst (Instaloader_login (demo true) (PStr "carol") (PStr "correct")
            (MkContext PNone ∅))
     = Raise (MkExn TwoFactorAuthRequiredException
                    "Login error: two-factor authentication required.").
Proof. repeat split; vm_compute; reflexivity. Qed.

(** *** Importing a session from a browser *)

(** [_get_cookies_from_browser] leaves everything but the log of calls as it
    was. *)
Lemma get_cookies_frame E browser cookiefile st r st' :
  InstagramLoader._get_cookies_from_browser E browser cookiefile st = (r, st')
  -> context st' = context st /\ files st' = files st
     /\ stdout st' = stdout st /\ stderr st' = stderr st.
Proof.
  unfold InstagramLoader._get_cookies_from_browser. run.
  destruct (InstagramLoader.lookup_browser browser) as [routine|].
  - destruct (browser_cookie3 E routine cookiefile) as [l|e].
    + destruct (bool_decide _); intros [= <- <-]; repeat split.
    + intros [= <- <-]; repeat split.
  - intros [= <- <-]; repeat split.
Qed.

(** The method, case by case, when the cookie-reading library is there. *)
Lemma load_session_from_browser_cases E browser cookiefile st :
  bc3_library E = true ->
  InstagramLoader.load_session_from_browser E browser cookiefile st =
  match InstagramLoader._get_cookies_from_browser E browser cookiefile st with
  | (Raise e, st1) => import_failure E e st1
  | (Ret cookies, st1) =>
      let c2 := install cookies (context st) in
      let st2 :=
        add_trace CallTestLogin
          (set_context c2 (add_trace (CallUpdateCookies cookies) st1)) in
      match Instaloader_test_login E c2 with
      | Raise e => import_failure E e st2
      | Ret username =>
          if truthy username then
            (Ret true,
             add_stdout ("Logged in as " +:+ py_str username
                         +:+ " using cookies from " +:+ py_str browser
                         +:+ ".")
               (set_context (MkContext username (ctx_cookies c2)) st2))
          else (Ret false, add_stderr "Failed to log in using cookies." st2)
      end
  end.
Proof.
  intros Hbc3. unfold InstagramLoader.load_session_from_browser.
  rewrite Hbc3. cbn [negb]. unfold try_except at 1, bind at 1.
  destruct (InstagramLoader._get_cookies_from_browser E browser cookiefile st)
    as [[cookies|e] st1] eqn:Hget.
  - apply get_cookies_frame in Hget as (Hc & _).
    unfold InstagramLoader.update_cookies, InstagramLoader.set_username,
      import_failure, install. run.
    cbn [context add_trace set_context]. rewrite Hc.
    destruct (Instaloader_test_login E _) as [username|e].
    + destruct (truthy username); reflexivity.
    + destruct (matches E e [Exception]); reflexivity.
  - unfold import_failure.
    destruct (matches E e [Exception]); reflexivity.
Qed.

(** The route, once the request carries a user name and a browser name: the
    handler looks up [save_session_to_file] when the import succeeded, and
    answers 400 when it failed. *)
Lemma import_route_cases (L : LoaderObj) import data st :
  truthy (get data "username") = true ->
  truthy (get data "browser") = true ->
  attr_load_session_from_browser L = Some import ->
  load_session_from_browser L data st =
  match import (get data "browser") (get data "cookiefile") st with
  | (Ret true, st1) =>
      (save <- getattr L "save_session_to_file" attr_save_session_to_file ;;
       save (get_session_file (get data "username")) ;;
       ret (jsonify "success"
              ("Session loaded from " +:+ py_str (get data "browser")
               +:+ ".") 200)) st1
  | (Ret false, st1) =>
      (Ret (MkResponse "failed" "Failed to load session from browser." 400),
       st1)
  | (Raise e, st1) => (Raise e, st1)
  end.
Proof.
  intros Hu Hb Hattr. unfold load_session_from_browser.
  rewrite Hu, Hb. cbn [negb orb]. unfold getattr at 1. rewrite Hattr.
  unfold bind at 1, ret at 1. unfold bind at 1.
  destruct (import _ _ st) as [[[|]|e] st1]; reflexivity.
Qed.

(** The keys of the table of the source are the names of the allow-list. *)
Lemma lookup_browser_listed browser :
  InstagramLoader.lookup_browser browser = None <-> listed browser = false.
Proof.
  destruct browser as [| b | nz t | s]; cbn [InstagramLoader.lookup_browser
    listed]; try tauto.
  unfold InstagramLoader.supported_browsers.
  rewrite <- not_elem_of_list_to_map, bool_decide_eq_false. reflexivity.
Qed.

(** C7, amended.  Take a request to [/load_session_from_browser] that
    carries a user name and a non-empty browser name, with [browser_cookie3]
    importable and [InvalidArgumentException] declared as an [Exception].
    If the browser name is not on the allow-list, the answer is status code
    400 with the message [Failed to load session from browser.], the same
    for every failed import; the cause is written to the error stream only,
    as [Failed to load cookies: Unsupported browser: ] and the name.
    Nothing else changes, so no extraction routine is invoked, whatever the
    [cookiefile] field holds.  If the name is on the allow-list, the routine
    the table gives for it is invoked with the cookie file of the request,
    before any other library call. *)
Theorem unsupported_browser_rejected
    (E : Externals) (data : gmap string pyval) (st : State) :
  bc3_library E = true ->
  truthy (get data "username") = true ->
  truthy (get data "browser") = true ->
  subclass E InvalidArgumentException Exception = true ->
  (listed (get data "browser") = false ->
   serve E r_load_session_from_browser data st =
     (Ret (MkResponse "failed" "Failed to load session from browser." 400),
      add_stderr ("Failed to load cookies: Unsupported browser: "
                  +:+ py_str (get data "browser")) st))
  /\ (listed (get data "browser") = true ->
      exists routine later,
        InstagramLoader.lookup_browser (get data "browser") = Some routine
        /\ trace (snd (serve E r_load_session_from_browser data st)) =
           (trace st
            ++ CallBrowserCookie3 routine (get data "cookiefile")
            :: later)%list).
Proof.
  intros Hbc3 Hu Hb Hsub. unfold serve.
  rewrite (import_route_cases (loader E) _ data st Hu Hb eq_refl).
  rewrite (load_session_from_browser_cases E _ _ st Hbc3).
  unfold InstagramLoader._get_cookies_from_browser.
  split.
  - intros Hl. apply lookup_browser_listed in Hl. rewrite Hl.
    unfold raise, import_failure, matches, isinstance.
    cbn [existsb exn_type exn_text]. rewrite Hsub. reflexivity.
  - intros Hl.
    destruct (InstagramLoader.lookup_browser (get data "browser"))
      as [routine|] eqn:Hlook.
    2:{ apply lookup_browser_listed in Hlook. congruence. }
    exists routine. run. unfold import_failure.
    assert (forall (evs later : list event) ev,
              ((evs ++ [ev]) ++ later = evs ++ ev :: later)%list) as Hshift.
    { intros. rewrite <- app_assoc. reflexivity. }
    destruct (browser_cookie3 E routine _) as [l|e].
    + destruct (bool_decide (InstagramLoader.instagram_cookies l = ∅)).
      * destruct (matches E _ [Exception]); exists [];
          (split; [reflexivity|]); cbn [snd trace add_stderr add_trace];
          reflexivity.
      * cbn [context add_trace set_context].
        destruct (Instaloader_test_login E _) as [u|e];
          [destruct (truthy u) | destruct (matches E e [Exception])];
          eexists; (split; [reflexivity|]);
          cbn [snd trace add_stderr add_stdout add_trace set_context];
          rewrite !Hshift; reflexivity.
    + destruct (matches E e [Exception]); exists [];
        (split; [reflexivity|]); cbn [snd trace add_stderr add_trace];
        reflexivity.
Qed.

Lemma unsupported_browser_rejected_witness :
  serve (demo true) r_load_session_from_browser
        (import_request "alice" "netscape") (fresh ∅)
  = (Ret (MkResponse "failed" "Failed to load session from browser." 400),
     add_stderr "Failed to load cookies: Unsupported browser: netscape"
                (fresh ∅)).
Proof.
  apply (unsupported_browser_rejected (demo true)
           (import_request "alice" "netscape") (fresh ∅));
    reflexivity.
Defined.

(** C7, as stated, fails.  A request that names an unsupported browser but
    no user is answered with the message of an incomplete request, and
    nothing at all is written or changed; and when the request is complete,
    the response for an unsupported browser is the very response for a
    supported browser that holds no cookie of the platform. *)
Lemma unsupported_browser_not_classified :
  serve (demo true) r_load_session_from_browser
        (<[ "browser" := PStr "netscape" ]> ∅) (fresh ∅)
  = (Ret (MkResponse "failed" "Username and browser name are required." 400),
     fresh ∅)
  /\ listed (PStr "netscape") = false
  /\ listed (PStr "edge") = true
  /\ fst (serve (demo true) r_load_session_from_browser
            (import_request "alice" "netscape") (fresh ∅))
     = fst (serve (demo true) r_load_session_from_browser
              (import_request "alice" "edge") (fresh ∅)).
Proof. repeat split; vm_compute; reflexivity. Qed.

(** C5, amended.  On the route [/load_session_from_browser]:
    a request without user name or browser name leaves the whole state as it
    was; an import whose cookie extraction fails (the library is absent, or
    [_get_cookies_from_browser] raises) leaves the context as it was; an
    import whose probe raises or names no user leaves the user name of the
    context as it was, and leaves the extracted cookies installed in the
    context. *)
Theorem failed_import_context
    (E : Externals) (data : gmap string pyval) (st : State) :
  let browser := get data "browser" in
  let cookiefile := get data "cookiefile" in
  let st' := snd (serve E r_load_session_from_browser data st) in
  (negb (truthy (get data "username")) || negb (truthy browser) = true ->
   st' = st)
  /\ (bc3_library E = false -> context st' = context st)
  /\ (forall e st1,
        InstagramLoader._get_cookies_from_browser E browser cookiefile st
        = (Raise e, st1) ->
        context st' = context st)
  /\ (forall cookies st1,
        truthy (get data "username") = true -> truthy browser = true ->
        bc3_library E = true ->
        InstagramLoader._get_cookies_from_browser E browser cookiefile st
        = (Ret cookies, st1) ->
        (forall username,
           Instaloader_test_login E (install cookies (context st))
           = Ret username -> truthy username = false) ->
        context st' = install cookies (context st)
        /\ ctx_username (context st') = ctx_username (context st)
        /\ cookies ⊆ ctx_cookies (context st')).
Proof.
  intros browser cookiefile st'. subst st'. unfold serve.
  destruct (negb (truthy (get data "username")) || negb (truthy browser))
    eqn:Hreq.
  { unfold load_session_from_browser. fold browser. rewrite Hreq.
    split; [reflexivity|]. split; [reflexivity|]. split; [reflexivity|].
    intros ? ? Hu Hb. rewrite Hu, Hb in Hreq. discriminate. }
  apply orb_false_elim in Hreq as [Hu Hb].
  apply negb_false_iff in Hu, Hb.
  rewrite (import_route_cases (loader E) _ data st Hu Hb eq_refl).
  fold browser cookiefile.
  split; [discriminate|]. split; [|split].
  - intros Hbc3.
    destruct (import_without_bc3 E browser cookiefile data st Hbc3)
      as [-> _]. reflexivity.
  - intros e st1 Hget.
    destruct (bc3_library E) eqn:Hbc3.
    + rewrite (load_session_from_browser_cases E _ _ st Hbc3), Hget.
      apply get_cookies_frame in Hget as (Hc & _).
      unfold import_failure. destruct (matches E e [Exception]); exact Hc.
    + destruct (import_without_bc3 E browser cookiefile data st Hbc3)
        as [-> _]. reflexivity.
  - intros cookies st1 _ _ Hbc3 Hget Hprobe.
    rewrite (load_session_from_browser_cases E _ _ st Hbc3), Hget.
    cbn zeta.
    assert (install cookies (context st) =
            install cookies (context st)
            /\ ctx_username (install cookies (context st))
               = ctx_username (context st)
            /\ cookies ⊆ ctx_cookies (install cookies (context st))) as Hgoal.
    { repeat split. cbn [install ctx_cookies]. apply map_union_subseteq_l. }
    destruct (Instaloader_test_login E _) as [u|e] eqn:Hp.
    + rewrite (Hprobe u eq_refl). exact Hgoal.
    + unfold import_failure. destruct (matches E e [Exception]); exact Hgoal.
Qed.

Lemma failed_import_context_witness :
  context (snd (serve (demo true) r_load_session_from_browser
                  (import_request "alice" "firefox") (fresh ∅)))
  = install {[ "sessionid" := "expired" ]} (context (fresh ∅)).
Proof.
  apply (failed_import_context (demo true)
           (import_request "alice" "firefox") (fresh ∅))
    with (st1 := add_trace (CallBrowserCookie3 bc3_firefox PNone) (fresh ∅));
    try reflexivity.
  intros username. vm_compute. intros [= <-]. reflexivity.
Defined.

(** C5, as stated, fails.  The import from Firefox, whose session the probe
    does not recognise, is answered with a failure, and the context holds
    the cookie of that session afterwards, which it did not hold before. *)
Lemma failed_probe_changes_context :
  let st := fresh ∅ in
  let '(r, st') :=
    serve (demo true) r_load_session_from_browser
          (import_request "alice" "firefox") st in
  r = Ret (MkResponse "failed" "Failed to load session from browser." 400)
  /\ ctx_cookies (context st) !! "sessionid" = None
  /\ ctx_cookies (context st') !! "sessionid" = Some "expired"
  /\ context st' <> context st.
Proof.
  vm_compute. repeat split. discriminate.
Qed.

(** C4, amended.  When a browser-cookie import succeeds, the user name
    stored in the shared context is the one the probe returned for the
    installed cookies.  The handler then looks up [save_session_to_file] on
    the loader object; the session file it passes to that method is the one
    derived from the [username] field of the request body.  This holds for
    the program's own loader and for any other object whose
    [load_session_from_browser] is the method of the class. *)
Theorem import_saved_under_request_name
    (E : Externals) (L : LoaderObj)
    (data : gmap string pyval) (st st1 : State) :
  truthy (get data "username") = true ->
  truthy (get data "browser") = true ->
  attr_load_session_from_browser L
  = Some (InstagramLoader.load_session_from_browser E) ->
  InstagramLoader.load_session_from_browser
    E (get data "browser") (get data "cookiefile") st = (Ret true, st1) ->
  (exists cookies,
     Instaloader_test_login E (install cookies (context st))
     = Ret (ctx_username (context st1))
     /\ truthy (ctx_username (context st1)) = true)
  /\ load_session_from_browser L data st =
     match attr_save_session_to_file L with
     | Some save =>
         (save (get_session_file (get data "username")) ;;
          ret (MkResponse "success"
                 ("Session loaded from " +:+ py_str (get data "browser")
                  +:+ ".") 200)) st1
     | None =>
         (Raise (no_attribute (class_name L) "save_session_to_file"), st1)
     end.
Proof.
  intros Hu Hb Himport Hok. split.
  - destruct (bc3_library E) eqn:Hbc3.
    2:{ destruct (import_without_bc3 E (get data "browser")
                    (get data "cookiefile") data st Hbc3) as [Hf _].
        rewrite Hf in Hok. discriminate. }
    rewrite (load_session_from_browser_cases E _ _ st Hbc3) in Hok.
    destruct (InstagramLoader._get_cookies_from_browser E _ _ st)
      as [[cookies|e] st0] eqn:Hget.
    + exists cookies. cbn zeta in Hok.
      destruct (Instaloader_test_login E _) as [u|e].
      * destruct (truthy u) eqn:Htu; [|discriminate].
        injection Hok as <-. cbn. auto.
      * unfold import_failure in Hok.
        destruct (matches E e [Exception]); discriminate.
    + unfold import_failure in Hok.
      destruct (matches E e [Exception]); discriminate.
  - rewrite (import_route_cases L _ data st Hu Hb Himport), Hok.
    unfold getattr. destruct (attr_save_session_to_file L); reflexivity.
Qed.

Lemma import_saved_under_request_name_witness :
  let '(r, st') :=
    serve (demo true) r_load_session_from_browser
          (import_request "alice" "chrome") (fresh ∅) in
  r = Raise (no_attribute "InstagramLoader" "save_session_to_file")
  /\ ctx_username (context st') = PStr "bob".
Proof.
  destruct (InstagramLoader.load_session_from_browser (demo true)
              (PStr "chrome") PNone (fresh ∅)) as [ok st1] eqn:Hok.
  unfold serve.
  destruct (import_saved_under_request_name (demo true) (loader (demo true))
              (import_request "alice" "chrome") (fresh ∅) st1
              eq_refl eq_refl eq_refl) as [_ ->].
  - vm_compute in Hok. injection Hok as <- <-. reflexivity.
  - vm_compute in Hok. injection Hok as <- <-. vm_compute. auto.
Defined.

(** C4, as stated, fails.  [alice] imports the cookies of Chrome, which hold
    the session of [bob]: the import succeeds and the context names [bob],
    yet no session file of [bob] exists afterwards. *)
Lemma import_not_saved_under_resolved_name :
  let '(ok, st1) :=
    InstagramLoader.load_session_from_browser (demo true) (PStr "chrome")
      PNone (fresh ∅) in
  let '(_, st') :=
    serve (demo true) r_load_session_from_browser
          (import_request "alice" "chrome") (fresh ∅) in
  ok = Ret true
  /\ ctx_username (context st') = PStr "bob"
  /\ get_session_file (PStr "bob") = "sessions/bob.session"
  /\ bool_decide ("sessions/bob.session" ∈ files st') = false.
Proof. vm_compute. auto. Qed.

(** *** Downloading a profile *)

(** The method, case by case. *)
Lemma download_profile_cases E name flags st :
  InstagramLoader.download_profile E name flags st =
  let st1 := add_trace (CallProfileFromUsername name) st in
  match Profile_from_username E name (context st) with
  | (Raise e, c1) => download_failure E e (set_context c1 st1)
  | (Ret p, c1) =>
      let st2 := add_trace (CallDownloadProfile p flags)
                           (set_context c1 st1) in
      match Instaloader_download_profile E p flags c1 with
      | (Ret _, c2) => (Ret true, set_context c2 st2)
      | (Raise e, c2) => download_failure E e (set_context c2 st2)
      end
  end.
Proof.
  unfold InstagramLoader.download_profile, download_failure. run.
  cbn [context add_trace].
  destruct (Profile_from_username E name (context st)) as [[p|e] c1].
  - cbn [context set_context add_trace].
    destruct (Instaloader_download_profile E p flags c1) as [[[]|e] c2].
    + reflexivity.
    + destruct (matches E e [ProfileNotExistsException]); [reflexivity|].
      destruct (matches E e [InstaloaderException]); reflexivity.
  - destruct (matches E e [ProfileNotExistsException]); [reflexivity|].
    destruct (matches E e [InstaloaderException]); reflexivity.
Qed.

(** The route, once the request names a profile. *)
Lemma download_profile_route_cases E data st :
  truthy (get data "profile_name") = true ->
  serve E r_download_profile data st =
  match InstagramLoader.download_profile
          E (get data "profile_name") (flags_of data) st with
  | (Ret true, st1) =>
      (Ret (MkResponse "success"
              ("Downloaded content from " +:+ py_str (get data "profile_name")
               +:+ ".") 200), st1)
  | (Ret false, st1) =>
      (Ret (MkResponse "failed"
              ("Failed to download content from "
               +:+ py_str (get data "profile_name") +:+ ".") 400), st1)
  | (Raise e, st1) => (Raise e, st1)
  end.
Proof.
  intros Hname. unfold serve, download_profile. rewrite Hname.
  cbn [negb]. run.
  destruct (InstagramLoader.download_profile E _ _ st) as [[[|]|e] st1];
    reflexivity.
Qed.

(** C3, amended.  A request to [/download_profile] that names a profile is
    served the same way whether or not a login, a cookie import or a session
    load came before: the state of the context is not examined.  The first
    library call is the resolution of the profile, and no login is made.
    When the library resolves the profile and downloads it, the answer is
    status code 200; when the resolution raises a
    [ProfileNotExistsException] or another [InstaloaderException], the
    answer is status code 400. *)
Theorem download_profile_without_login
    (E : Externals) (data : gmap string pyval) (st : State) :
  truthy (get data "profile_name") = true ->
  let name := get data "profile_name" in
  let r := fst (serve E r_download_profile data st) in
  let st' := snd (serve E r_download_profile data st) in
  (exists later,
     trace st' = (trace st ++ CallProfileFromUsername name :: later)%list
     /\ forall user passwd, CallLogin user passwd ∉ later)
  /\ (forall p c1 c2,
        Profile_from_username E name (context st) = (Ret p, c1) ->
        Instaloader_download_profile E p (flags_of data) c1 = (Ret tt, c2) ->
        r = Ret (MkResponse "success"
                   ("Downloaded content from " +:+ py_str name +:+ ".") 200))
  /\ (forall e c1,
        Profile_from_username E name (context st) = (Raise e, c1) ->
        matches E e [ProfileNotExistsException; InstaloaderException]
        = true ->
        r = Ret (MkResponse "failed"
                   ("Failed to download content from " +:+ py_str name
                    +:+ ".") 400)).
Proof.
  intros Hname name r st'. subst r st'.
  rewrite (download_profile_route_cases E data st Hname).
  rewrite download_profile_cases. fold name. cbn zeta.
  assert (forall e s, exists s',
            download_failure E e s = (Ret false, s') /\ trace s' = trace s
            \/ download_failure E e s = (Raise e, s)) as Hfail.
  { intros e s. unfold download_failure.
    destruct (matches E e [ProfileNotExistsException]);
      [eexists; left; split; reflexivity|].
    destruct (matches E e [InstaloaderException]);
      [eexists; left; split; reflexivity|].
    exists s. right. reflexivity. }
  split; [|split].
  - destruct (Profile_from_username E name (context st)) as [[p|e] c1].
    + exists [CallDownloadProfile p (flags_of data)].
      split.
      * destruct (Instaloader_download_profile E p _ c1) as [[[]|e] c2].
        -- cbn. rewrite <- app_assoc. reflexivity.
        -- destruct (Hfail e (set_context c2
               (add_trace (CallDownloadProfile p (flags_of data))
                  (set_context c1
                     (add_trace (CallProfileFromUsername name) st)))))
             as [s' [[-> Ht] | ->]]; cbn [snd]; rewrite ?Ht; cbn;
             rewrite <- app_assoc; reflexivity.
      * intros user passwd Hin. apply list_elem_of_singleton in Hin.
        discriminate.
    + exists []. split; [|intros ? ? Hin; inversion Hin].
      destruct (Hfail e (set_context c1
                  (add_trace (CallProfileFromUsername name) st)))
        as [s' [[-> Ht] | ->]]; cbn [snd]; rewrite ?Ht; reflexivity.
  - intros p c1 c2 -> ->. reflexivity.
  - intros e c1 -> Hm. unfold download_failure.
    unfold matches in *. cbn [existsb] in *.
    rewrite orb_false_r in *.
    destruct (isinstance E e ProfileNotExistsException); [reflexivity|].
    cbn [orb] in Hm. rewrite Hm. reflexivity.
Qed.

Lemma download_profile_without_login_witness :
  fst (serve (demo true) r_download_profile
         (<[ "profile_name" := PStr "bob" ]> ∅) (fresh ∅))
  = Ret (MkResponse "success" "Downloaded content from bob." 200).
Proof.
  destruct (download_profile_without_login (demo true)
              (<[ "profile_name" := PStr "bob" ]> ∅) (fresh ∅))
    as (_ & Hok & _); [vm_compute; reflexivity|].
  apply (Hok (MkProfile "bob") (MkContext PNone ∅) (MkContext PNone ∅));
    vm_compute; reflexivity.
Defined.

(** C3, as stated, fails.  In a process that has served no request yet, so
    without any login, the download of the profile [bob] is answered with
    status code 200, after the library was asked to resolve the profile and
    to download it. *)
Lemma download_without_login_succeeds :
  serve (demo true) r_download_profile
        (<[ "profile_name" := PStr "bob" ]> ∅) (fresh ∅)
  = (Ret (MkResponse "success" "Downloaded content from bob." 200),
     add_trace
       (CallDownloadProfile (MkProfile "bob")
          (MkFlags (PBool true) (PBool false) (PBool false) (PBool false)
                   (PBool false) (PBool false) (PBool false)))
       (add_trace (CallProfileFromUsername (PStr "bob")) (fresh ∅)))
  /\ trace (fresh ∅) = [] /\ ctx_username (context (fresh ∅)) = PNone.
Proof. repeat split. Qed.

(** *** The login routes *)

(** The method [login], case by case. *)
Lemma login_cases E username password st :
  InstagramLoader.login E username password st =
  let st1 := add_trace (CallLogin username password) st in
  match Instaloader_login E username password (context st) with
  | (Ret _, c) => (Ret true, set_context c st1)
  | (Raise e, c) =>
      if matches E e [BadCredentialsException;
                      TwoFactorAuthRequiredException; LoginException]
      then (Ret false,
            add_stderr ("Login failed: " +:+ exn_text e) (set_context c st1))
      else (Raise e, set_context c st1)
  end.
Proof.
  unfold InstagramLoader.login. run. cbn [context add_trace].
  destruct (Instaloader_login E username password (context st))
    as [[[]|e] c]; [reflexivity|].
  destruct (matches E e _); reflexivity.
Qed.

Lemma login_route_cases E data st :
  truthy (get data "username") = true ->
  truthy (get data "password") = true ->
  serve E r_login data st =
  login_response "Login failed. Check your credentials."
    (InstagramLoader.login E (get data "username") (get data "password")
       (after_reuse_attempt (get data "username") st)).
Proof.
  intros Hu Hp. unfold serve, login, after_reuse_attempt, login_response.
  rewrite Hu, Hp. cbn [negb orb]. run.
  destruct (bool_decide (get_session_file (get data "username") ∈ files st)).
  - rewrite no_attribute_is_Exception.
    destruct (InstagramLoader.login E _ _ _) as [[[|]|e] st1]; reflexivity.
  - destruct (InstagramLoader.login E _ _ _) as [[[|]|e] st1]; reflexivity.
Qed.

Lemma reattempt_login_route_cases E data st :
  truthy (get data "username") = true ->
  truthy (get data "password") = true ->
  serve E r_reattempt_login data st =
  login_response "Re-login failed. Check your credentials."
    (InstagramLoader.login E (get data "username") (get data "password") st).
Proof.
  intros Hu Hp. unfold serve, reattempt_login, login_response.
  rewrite Hu, Hp. cbn [negb orb]. run.
  destruct (InstagramLoader.login E _ _ _) as [[[|]|e] st1]; reflexivity.
Qed.

(** A fresh login is made on [/login] whenever the request carries both
    fields, whether a session file exists or not. *)
Lemma login_always_authenticates E data st :
  truthy (get data "username") = true ->
  truthy (get data "password") = true ->
  CallLogin (get data "username") (get data "password")
  ∈ trace (snd (serve E r_login data st)).
Proof.
  intros Hu Hp. rewrite (login_route_cases E data st Hu Hp), login_cases.
  cbn zeta. unfold login_response.
  assert (forall s : State,
            CallLogin (get data "username") (get data "password")
            ∈ trace (add_trace
                       (CallLogin (get data "username") (get data "password"))
                       s)) as Hin.
  { intros s. cbn. apply elem_of_app. right. apply list_elem_of_singleton.
    reflexivity. }
  destruct (Instaloader_login E _ _ _) as [[[]|e] c].
  - apply Hin.
  - destruct (matches E e _); apply Hin.
Qed.

(** Once the library has accepted the credentials, [/login] fails on the
    lookup of [save_session_to_file], and the files are as before. *)
Lemma accepted_login_raises E data st c :
  truthy (get data "username") = true ->
  truthy (get data "password") = true ->
  Instaloader_login E (get data "username") (get data "password")
    (context st) = (Ret tt, c) ->
  fst (serve E r_login data st)
  = Raise (no_attribute "InstagramLoader" "save_session_to_file")
  /\ files (snd (serve E r_login data st)) = files st.
Proof.
  intros Hu Hp Hlib. rewrite (login_route_cases E data st Hu Hp), login_cases.
  assert (context (after_reuse_attempt (get data "username") st) = context st
          /\ files (after_reuse_attempt (get data "username") st) = files st)
    as [Hc Hf].
  { unfold after_reuse_attempt. destruct (bool_decide _); split; reflexivity. }
  rewrite Hc, Hlib. cbn. split; [reflexivity | exact Hf].
Qed.

(** C2: the code at the failing input.  No session file of [alice] exists
    and the library accepts her password; [/login] gives no response but
    raises [AttributeError] on the lookup of [save_session_to_file], and no
    session file of [alice] exists afterwards. *)
Theorem accepted_login_is_not_persisted :
  let st := fresh ∅ in
  let '(r, st') := serve (demo true) r_login (credentials "alice" "correct") st
  in
  bool_decide (get_session_file (PStr "alice") ∈ files st) = false
  /\ fst (Instaloader_login (demo true) (PStr "alice") (PStr "correct")
            (context st)) = Ret tt
  /\ r = Raise (MkExn AttributeError
    "'InstagramLoader' object has no attribute 'save_session_to_file'")
  /\ get_session_file (PStr "alice") = "sessions/alice.session"
  /\ bool_decide ("sessions/alice.session" ∈ files st') = false
  /\ files st' = files st.
Proof. vm_compute. repeat split. Qed.

(** C8: the code at the failing input.  A session file of [alice] exists;
    [/login] with a wrong password does not reuse it: the lookup of
    [load_session_from_file] fails, the password is sent to the library,
    which rejects it, and the answer is status code 401. *)
Theorem stored_session_is_not_reused :
  let st := fresh {[ "sessions/alice.session" ]} in
  let '(r, st') := serve (demo true) r_login (credentials "alice" "wrong") st
  in
  bool_decide (get_session_file (PStr "alice") ∈ files st) = true
  /\ r = Ret (MkResponse "failed" "Login failed. Check your credentials." 401)
  /\ trace st' = [CallLogin (PStr "alice") (PStr "wrong")]
  /\ stdout st' =
     ["Failed to load session: 'InstagramLoader' object has no attribute 'load_session_from_file'"].
Proof. vm_compute. repeat split. Qed.

(** *** Which errors reach the transport layer *)

(** A [try] whose handlers all return lets an exception through only when
    no clause matches it. *)
Lemma try_except_raises {A} (body : M A) clauses st e st' :
  (forall e0 handler s,
     clauses e0 = Some handler -> exists a s', handler s = (Ret a, s')) ->
  try_except body clauses st = (Raise e, st') ->
  clauses e = None.
Proof.
  intros Hret. unfold try_except.
  destruct (body st) as [[a|e0] s]; [discriminate|].
  destruct (clauses e0) as [handler|] eqn:Hc.
  - destruct (Hret _ _ s Hc) as (a & s' & ->). discriminate.
  - intros [= <- <-]. exact Hc.
Qed.

Lemma login_raises E username password st e st' :
  InstagramLoader.login E username password st = (Raise e, st') ->
  matches E e [BadCredentialsException; TwoFactorAuthRequiredException;
               LoginException] = false.
Proof.
  intros H. apply try_except_raises in H.
  - destruct (matches E e _); [discriminate | reflexivity].
  - intros e0 handler s. destruct (matches E e0 _); [|discriminate].
    intros [= <-]. eexists _, _. reflexivity.
Qed.

Lemma import_raises E browser cookiefile st e st' :
  InstagramLoader.load_session_from_browser E browser cookiefile st
  = (Raise e, st') ->
  matches E e [Exception] = false.
Proof.
  unfold InstagramLoader.load_session_from_browser.
  destruct (bc3_library E); cbn [negb]; [|discriminate].
  intros H. apply try_except_raises in H.
  - destruct (matches E e _); [discriminate | reflexivity].
  - intros e0 handler s. destruct (matches E e0 _); [|discriminate].
    intros [= <-]. eexists _, _. reflexivity.
Qed.

Lemma download_profile_raises E name flags st e st' :
  InstagramLoader.download_profile E name flags st = (Raise e, st') ->
  matches E e [ProfileNotExistsException; InstaloaderException] = false.
Proof.
  intros H. apply try_except_raises in H.
  - unfold matches in *. cbn [existsb] in *. rewrite orb_false_r in *.
    destruct (isinstance E e ProfileNotExistsException); [discriminate|].
    destruct (isinstance E e InstaloaderException);
      [discriminate | reflexivity].
  - intros e0 handler s.
    destruct (matches E e0 [ProfileNotExistsException]);
      [intros [= <-]; eexists _, _; reflexivity|].
    destruct (matches E e0 [InstaloaderException]); [|discriminate].
    intros [= <-]. eexists _, _. reflexivity.
Qed.

Lemma download_hashtag_raises E hashtag max_count st e st' :
  InstagramLoader.download_hashtag E hashtag max_count st = (Raise e, st') ->
  matches E e [InstaloaderException] = false.
Proof.
  intros H. apply try_except_raises in H.
  - destruct (matches E e _); [discriminate | reflexivity].
  - intros e0 handler s. destruct (matches E e0 _); [|discriminate].
    intros [= <-]. eexists _, _. reflexivity.
Qed.

Lemma download_stories_raises E name st e st' :
  InstagramLoader.download_stories E name st = (Raise e, st') ->
  matches E e [InstaloaderException] = false.
Proof.
  intros H. apply try_except_raises in H.
  - destruct (matches E e _); [discriminate | reflexivity].
  - intros e0 handler s. destruct (matches E e0 _); [|discriminate].
    intros [= <-]. eexists _, _. reflexivity.
Qed.

Lemma login_response_raises E failure username password st e st' :
  login_response failure (InstagramLoader.login E username password st)
  = (Raise e, st') ->
  matches E e [BadCredentialsException; TwoFactorAuthRequiredException;
               LoginException] = false.
Proof.
  unfold login_response.
  destruct (InstagramLoader.login E username password st)
    as [[[|]|e0] s] eqn:Hl.
  - intros [= <- <-]. apply no_attribute_not_library.
    repeat constructor; discriminate.
  - discriminate.
  - intros [= <- <-]. exact (login_raises _ _ _ _ _ _ Hl).
Qed.

(** An exception leaves a handler only if no [except] clause around the
    library call of the route names its class, or if it is the
    [AttributeError] raised on [/load_session_from_browser] after an import
    that succeeded; and a response, when there is one, has status [success]
    with code 200 or status [failed] with code 400 or 401. *)
Lemma only_unlisted_escape
    (E : Externals) (r : route) (data : gmap string pyval) (st st' : State) :
  (forall e,
     serve E r data st = (Raise e, st') ->
     matches E e (converted_classes r) = false
     \/ (r = r_load_session_from_browser
         /\ e = no_attribute "InstagramLoader" "save_session_to_file"))
  /\ (forall resp,
        serve E r data st = (Ret resp, st') ->
        (status resp = "success" /\ status_code resp = 200)
        \/ (status resp = "failed"
            /\ (status_code resp = 400 \/ status_code resp = 401))).
Proof.
  split.
  - intros e. destruct r; cbn [converted_classes].
    + destruct (negb (truthy (get data "username"))
                || negb (truthy (get data "password"))) eqn:Hreq.
      * unfold serve, login. rewrite Hreq. discriminate.
      * apply orb_false_elim in Hreq as [Hu Hp].
        apply negb_false_iff in Hu, Hp.
        rewrite (login_route_cases E data st Hu Hp). intros H. left.
        exact (login_response_raises _ _ _ _ _ _ _ H).
    + destruct (negb (truthy (get data "username"))
                || negb (truthy (get data "password"))) eqn:Hreq.
      * unfold serve, reattempt_login. rewrite Hreq. discriminate.
      * apply orb_false_elim in Hreq as [Hu Hp].
        apply negb_false_iff in Hu, Hp.
        rewrite (reattempt_login_route_cases E data st Hu Hp). intros H. left.
        exact (login_response_raises _ _ _ _ _ _ _ H).
    + destruct (negb (truthy (get data "username"))
                || negb (truthy (get data "browser"))) eqn:Hreq.
      * unfold serve, load_session_from_browser. rewrite Hreq. discriminate.
      * apply orb_false_elim in Hreq as [Hu Hb].
        apply negb_false_iff in Hu, Hb. unfold serve.
        rewrite (import_route_cases (loader E) _ data st Hu Hb eq_refl).
        destruct (InstagramLoader.load_session_from_browser E _ _ st)
          as [[[|]|e0] s] eqn:Hl.
        -- intros [= <- <-]. right. split; reflexivity.
        -- discriminate.
        -- intros [= <- <-]. left. exact (import_raises _ _ _ _ _ _ Hl).
    + destruct (truthy (get data "profile_name")) eqn:Hname.
      * rewrite (download_profile_route_cases E data st Hname).
        destruct (InstagramLoader.download_profile E _ _ st)
          as [[[|]|e0] s] eqn:Hl; try discriminate.
        intros [= <- <-]. left.
        exact (download_profile_raises _ _ _ _ _ _ Hl).
      * unfold serve, download_profile. rewrite Hname. discriminate.
    + unfold serve, download_hashtag.
      destruct (truthy (get data "hashtag")); cbn [negb]; [|discriminate].
      run.
      destruct (InstagramLoader.download_hashtag E _ _ st)
        as [[[|]|e0] s] eqn:Hl; try discriminate.
      intros [= <- <-]. left. exact (download_hashtag_raises _ _ _ _ _ _ Hl).
    + unfold serve, download_stories.
      destruct (truthy (get data "profile_name")); cbn [negb];
        [|discriminate].
      run.
      destruct (InstagramLoader.download_stories E _ st)
        as [[[|]|e0] s] eqn:Hl; try discriminate.
      intros [= <- <-]. left. exact (download_stories_raises _ _ _ _ _ Hl).
    + left. reflexivity.
  - intros resp. destruct r.
    + destruct (negb (truthy (get data "username"))
                || negb (truthy (get data "password"))) eqn:Hreq.
      * unfold serve, login. rewrite Hreq. intros [= <- <-]. cbn. auto.
      * apply orb_false_elim in Hreq as [Hu Hp].
        apply negb_false_iff in Hu, Hp.
        rewrite (login_route_cases E data st Hu Hp). unfold login_response.
        destruct (InstagramLoader.login E _ _ _) as [[[|]|e0] s];
          intros [= <- <-]. cbn. auto.
    + destruct (negb (truthy (get data "username"))
                || negb (truthy (get data "password"))) eqn:Hreq.
      * unfold serve, reattempt_login. rewrite Hreq. intros [= <- <-].
        cbn. auto.
      * apply orb_false_elim in Hreq as [Hu Hp].
        apply negb_false_iff in Hu, Hp.
        rewrite (reattempt_login_route_cases E data st Hu Hp).
        unfold login_response.
        destruct (InstagramLoader.login E _ _ _) as [[[|]|e0] s];
          intros [= <- <-]. cbn. auto.
    + destruct (negb (truthy (get data "username"))
                || negb (truthy (get data "browser"))) eqn:Hreq.
      * unfold serve, load_session_from_browser. rewrite Hreq.
        intros [= <- <-]. cbn. auto.
      * apply orb_false_elim in Hreq as [Hu Hb].
        apply negb_false_iff in Hu, Hb. unfold serve.
        rewrite (import_route_cases (loader E) _ data st Hu Hb eq_refl).
        destruct (InstagramLoader.load_session_from_browser E _ _ st)
          as [[[|]|e0] s]; intros [= <- <-]. cbn. auto.
    + destruct (truthy (get data "profile_name")) eqn:Hname.
      * rewrite (download_profile_route_cases E data st Hname).
        destruct (InstagramLoader.download_profile E _ _ st)
          as [[[|]|e0] s]; intros [= <- <-]; cbn; auto.
      * unfold serve, download_profile. rewrite Hname.
        intros [= <- <-]. cbn. auto.
    + unfold serve, download_hashtag.
      destruct (truthy (get data "hashtag")); cbn [negb];
        [|intros [= <- <-]; cbn; auto].
      run.
      destruct (InstagramLoader.download_hashtag E _ _ st)
        as [[[|]|e0] s]; intros [= <- <-]; cbn; auto.
    + unfold serve, download_stories.
      destruct (truthy (get data "profile_name")); cbn [negb];
        [|intros [= <- <-]; cbn; auto].
      run.
      destruct (InstagramLoader.download_stories E _ st)
        as [[[|]|e0] s]; intros [= <- <-]; cbn; auto.
    + unfold serve, close. run.
      destruct (InstagramLoader.close E st) as [[[]|e0] s];
        intros [= <- <-]. cbn. auto.
Qed.

(** C1, as stated, fails.  A login made while the network is down raises an
    error that is none of the three login errors, and the error leaves the
    handler of [/login]; on each of the three routes that persist a session,
    a request whose authentication succeeds ends in an [AttributeError]
    instead of a response; and so does a request to [/login] whose body is
    [null]. *)
Lemma errors_reach_transport_layer :
  fst (serve (demo true) r_login (credentials "alice" "offline") (fresh ∅))
  = Raise (MkExn (OtherClass "ConnectionError") "Network is unreachable")
  /\ fst (serve (demo true) r_login (credentials "alice" "correct")
            (fresh ∅))
     = Raise (no_attribute "InstagramLoader" "save_session_to_file")
  /\ fst (serve (demo true) r_reattempt_login
            (credentials "alice" "correct") (fresh ∅))
     = Raise (no_attribute "InstagramLoader" "save_session_to_file")
  /\ fst (serve (demo true) r_load_session_from_browser
            (import_request "alice" "chrome") (fresh ∅))
     = Raise (no_attribute "InstagramLoader" "save_session_to_file")
  /\ fst (handle (demo true) r_login (JOther "NoneType") (fresh ∅))
     = Raise (no_attribute "NoneType" "get").
Proof. repeat split; vm_compute; reflexivity. Qed.

(** ** Further properties of the code *)

(** *** The cookie filter *)

Lemma prefix_spec needle hay :
  String.prefix needle hay = true <-> exists post, hay = needle +:+ post.
Proof.
  revert hay. induction needle as [|a needle IH]; intros hay.
  - split; [intros _; exists hay; reflexivity|].
    intros _. destruct hay; reflexivity.
  - destruct hay as [|b hay]; cbn [String.prefix].
    + split; [discriminate | intros [post H]; discriminate].
    + destruct (Ascii.ascii_dec a b) as [->|Hne].
      * rewrite IH. split; intros [post H]; exists post.
        -- rewrite H. reflexivity.
        -- injection H as H. exact H.
      * split; [discriminate|]. intros [post H]. injection H as H1 H2.
        congruence.
Qed.

(** [needle in hay] holds exactly when [needle] is a substring of [hay]. *)
Lemma contains_spec needle hay :
  contains needle hay = true
  <-> exists pre post, hay = pre +:+ needle +:+ post.
Proof.
  induction hay as [|b hay IH]; cbn [contains].
  - rewrite orb_false_r, prefix_spec. split.
    + intros [post H]. exists "", post. exact H.
    + intros ([|a pre] & post & H); [exists post; exact H | discriminate].
  - rewrite orb_true_iff, prefix_spec, IH. split.
    + intros [[post H] | (pre & post & H)].
      * exists "", post. exact H.
      * exists (String b pre), post. rewrite H. reflexivity.
    + intros ([|a pre] & post & H).
      * left. exists post. exact H.
      * right. injection H as _ H. exists pre, post. exact H.
Qed.

(** X1.  The dictionary built by the loop of lines 124-128 maps a name to
    the value of the last cookie of that name whose domain contains
    [instagram.com], and holds no entry for a name without such a cookie. *)
Theorem instagram_cookies_lookup (browser_cookies : list Cookie) (n : string) :
  InstagramLoader.instagram_cookies browser_cookies !! n
  = cookie_value
    <$> last (filter (fun c => kept c = true /\ cookie_name c = n)
                     browser_cookies).
Proof.
  unfold InstagramLoader.instagram_cookies.
  induction browser_cookies as [|c l IH] using rev_ind; [reflexivity|].
  rewrite foldl_snoc, filter_app. fold (kept c).
  destruct (kept c) eqn:Hk.
  - destruct (decide (cookie_name c = n)) as [Hn|Hn].
    + rewrite Hn, lookup_insert_eq.
      rewrite (filter_cons_True _ c []) by (split; assumption).
      rewrite filter_nil, last_snoc. reflexivity.
    + rewrite lookup_insert_ne by assumption.
      rewrite (filter_cons_False _ c []) by (intros [_ ?]; contradiction).
      rewrite filter_nil, app_nil_r. exact IH.
  - rewrite (filter_cons_False _ c []) by (intros [? _]; congruence).
    rewrite filter_nil, app_nil_r. exact IH.
Qed.

(** The dictionary is empty exactly when no cookie is kept. *)
Lemma instagram_cookies_empty (browser_cookies : list Cookie) :
  InstagramLoader.instagram_cookies browser_cookies = ∅
  <-> Forall (fun c => kept c = false) browser_cookies.
Proof.
  split.
  - intros Hempty. apply Forall_forall. intros c Hin.
    destruct (kept c) eqn:Hk; [|reflexivity]. exfalso.
    pose proof (instagram_cookies_lookup browser_cookies (cookie_name c))
      as Hlook.
    rewrite Hempty, lookup_empty in Hlook. symmetry in Hlook.
    apply fmap_None, last_None in Hlook.
    assert (c ∈ filter (fun c' => kept c' = true
                                  /\ cookie_name c' = cookie_name c)
                       browser_cookies) as Hc.
    { apply list_elem_of_filter. auto. }
    rewrite Hlook in Hc. inversion Hc.
  - intros Hall. apply map_eq. intros n.
    rewrite instagram_cookies_lookup, lookup_empty.
    apply fmap_None, last_None.
    induction Hall as [|c l Hk _ IH]; [reflexivity|].
    rewrite filter_cons_False by (intros [? _]; congruence). exact IH.
Qed.

(** X2.  For a browser of the table whose extraction routine returns a list
    of cookies: when no cookie has a domain of which [instagram.com] is a
    substring (in particular when the list is empty),
    [_get_cookies_from_browser] raises [LoginException] with the text
    [No Instagram cookies found in ] and the browser name; otherwise it
    returns the dictionary of the kept cookies, which is not empty.  Either
    way the routine was called once, with the cookie file given. *)
Theorem get_cookies_outcome
    (E : Externals) (browser : string) (cookiefile : pyval)
    (routine : bc3_routine) (browser_cookies : list Cookie) (st : State) :
  InstagramLoader.supported_browsers !! browser = Some routine ->
  browser_cookie3 E routine cookiefile = Ret browser_cookies ->
  let st' := add_trace (CallBrowserCookie3 routine cookiefile) st in
  let found c :=
    exists pre post, cookie_domain c = pre +:+ "instagram.com" +:+ post in
  ((forall c, c ∈ browser_cookies -> ~ found c) ->
   InstagramLoader._get_cookies_from_browser E (PStr browser) cookiefile st
   = (Raise (MkExn LoginException
               ("No Instagram cookies found in " +:+ browser +:+ ".")), st'))
  /\ ((exists c, c ∈ browser_cookies /\ found c) ->
      InstagramLoader._get_cookies_from_browser E (PStr browser) cookiefile st
      = (Ret (InstagramLoader.instagram_cookies browser_cookies), st')
      /\ InstagramLoader.instagram_cookies browser_cookies <> ∅).
Proof.
  intros Hlook Hlib st' found.
  unfold InstagramLoader._get_cookies_from_browser.
  cbn [InstagramLoader.lookup_browser]. rewrite Hlook. run. rewrite Hlib.
  split.
  - intros Hnone.
    assert (InstagramLoader.instagram_cookies browser_cookies = ∅) as ->.
    { apply instagram_cookies_empty, Forall_forall. intros c Hin.
      destruct (kept c) eqn:Hk; [|reflexivity].
      exfalso. apply (Hnone c Hin). apply contains_spec. exact Hk. }
    reflexivity.
  - intros (c & Hin & Hfound).
    assert (InstagramLoader.instagram_cookies browser_cookies <> ∅) as Hne.
    { intros Hempty. apply instagram_cookies_empty in Hempty.
      rewrite Forall_forall in Hempty. specialize (Hempty c Hin).
      apply contains_spec in Hfound. unfold kept in Hempty. congruence. }
    rewrite bool_decide_eq_false_2 by exact Hne. split; [reflexivity|].
    exact Hne.
Qed.

Lemma get_cookies_outcome_witness :
  InstagramLoader._get_cookies_from_browser (demo true) (PStr "edge") PNone
    (fresh ∅)
  = (Raise (MkExn LoginException "No Instagram cookies found in edge."),
     add_trace (CallBrowserCookie3 bc3_edge PNone) (fresh ∅)).
Proof.
  apply (get_cookies_outcome (demo true) "edge" PNone bc3_edge
           [MkCookie ".example.org" "theme" "dark"] (fresh ∅));
    [reflexivity | reflexivity |].
  intros c Hin Hfound. apply list_elem_of_singleton in Hin. subst c.
  apply contains_spec in Hfound. vm_compute in Hfound. discriminate.
Defined.

(** *** When an import succeeds *)

(** X3.  [load_session_from_browser] returns [True] exactly when the
    cookie-reading library is there, the browser is in the table, its
    routine returns a list with at least one kept cookie, and the probe, run
    on the context with these cookies installed, returns a user name that is
    true as a condition. *)
Theorem import_succeeds_iff
    (E : Externals) (browser cookiefile : pyval) (st : State) :
  fst (InstagramLoader.load_session_from_browser E browser cookiefile st)
  = Ret true
  <-> bc3_library E = true
      /\ exists routine browser_cookies username,
           InstagramLoader.lookup_browser browser = Some routine
           /\ browser_cookie3 E routine cookiefile = Ret browser_cookies
           /\ InstagramLoader.instagram_cookies browser_cookies <> ∅
           /\ Instaloader_test_login E
                (install (InstagramLoader.instagram_cookies browser_cookies)
                         (context st)) = Ret username
           /\ truthy username = true.
Proof.
  destruct (bc3_library E) eqn:Hbc3.
  2:{ destruct (import_without_bc3 E browser cookiefile ∅ st Hbc3)
        as [-> _].
      split; [discriminate | intros [? _]; discriminate]. }
  rewrite (load_session_from_browser_cases E _ _ st Hbc3).
  unfold InstagramLoader._get_cookies_from_browser, import_failure. run.
  split.
  - intros H. split; [reflexivity|].
    destruct (InstagramLoader.lookup_browser browser) as [routine|].
    2:{ destruct (matches E _ [Exception]); discriminate. }
    destruct (browser_cookie3 E routine cookiefile) as [l|e] eqn:Hlib.
    2:{ destruct (matches E _ [Exception]); discriminate. }
    destruct (bool_decide (InstagramLoader.instagram_cookies l = ∅)) eqn:Hem.
    { destruct (matches E _ [Exception]); discriminate. }
    apply bool_decide_eq_false in Hem.
    cbn [context add_trace] in H.
    destruct (Instaloader_test_login E _) as [u|e] eqn:Hp.
    2:{ destruct (matches E _ [Exception]); discriminate. }
    destruct (truthy u) eqn:Hu; [|discriminate].
    exists routine, l, u. repeat split; assumption.
  - intros (_ & routine & l & u & -> & -> & Hne & Hp & Hu).
    rewrite bool_decide_eq_false_2 by exact Hne.
    cbn [context add_trace]. rewrite Hp, Hu. reflexivity.
Qed.

(** *** The path of a session file *)

Lemma list_ascii_of_string_app (s t : string) :
  String.list_ascii_of_string (s +:+ t)
  = (String.list_ascii_of_string s ++ String.list_ascii_of_string t)%list.
Proof.
  induction s as [|a s IH]; [reflexivity|].
  change (String a s +:+ t) with (String a (s +:+ t)).
  cbn [String.list_ascii_of_string]. rewrite IH. reflexivity.
Qed.

Lemma string_app_inv_tail (s1 s2 t : string) :
  s1 +:+ t = s2 +:+ t -> s1 = s2.
Proof.
  intros H. apply (f_equal String.list_ascii_of_string) in H.
  rewrite !list_ascii_of_string_app in H. apply app_inv_tail in H.
  rewrite <- (String.string_of_list_ascii_of_string s1),
          <- (String.string_of_list_ascii_of_string s2), H.
  reflexivity.
Qed.

Lemma prefix_slash_app (u t : string) :
  u <> "" -> String.prefix "/" (u +:+ t) = String.prefix "/" u.
Proof.
  destruct u as [|a u]; [congruence|]. intros _.
  change (String a u +:+ t) with (String a (u +:+ t)).
  cbn [String.prefix]. destruct (Ascii.ascii_dec _ a); [|reflexivity].
  destruct (u +:+ t), u; reflexivity.
Qed.

(** X5.  With the POSIX path rules, the session file of a user name that
    does not begin with a slash is [sessions/], the name and [.session]; for
    a user name that begins with a slash the directory is dropped, and the
    path is the name followed by [.session], outside the session
    directory. *)
Theorem get_session_file_shape (username : string) :
  (String.prefix "/" username = false ->
   get_session_file (PStr username)
   = "sessions/" +:+ username +:+ ".session")
  /\ (String.prefix "/" username = true ->
      get_session_file (PStr username) = username +:+ ".session").
Proof.
  unfold get_session_file, os_path_join. cbn [py_str].
  destruct username as [|a u]; [split; [reflexivity | discriminate]|].
  rewrite prefix_slash_app by discriminate.
  split; intros ->; reflexivity.
Qed.

Lemma get_session_file_shape_witness :
  get_session_file (PStr "/tmp/alice") = "/tmp/alice.session".
Proof.
  apply (get_session_file_shape "/tmp/alice"). reflexivity.
Defined.

(** X4.  Two different user names, given as strings, never share a session
    file. *)
Theorem get_session_file_inj (u1 u2 : string) :
  get_session_file (PStr u1) = get_session_file (PStr u2) -> u1 = u2.
Proof.
  destruct (get_session_file_shape u1) as [Hr1 Ha1].
  destruct (get_session_file_shape u2) as [Hr2 Ha2].
  destruct (String.prefix "/" u1) eqn:H1, (String.prefix "/" u2) eqn:H2.
  - rewrite Ha1, Ha2 by reflexivity. apply string_app_inv_tail.
  - rewrite Ha1, Hr2 by reflexivity.
    apply prefix_spec in H1 as [post ->]. discriminate.
  - rewrite Hr1, Ha2 by reflexivity.
    apply prefix_spec in H2 as [post ->]. discriminate.
  - rewrite Hr1, Hr2 by reflexivity. intros H.
    apply (inj (String.app "sessions/")) in H.
    exact (string_app_inv_tail _ _ _ H).
Qed.

Lemma get_session_file_inj_witness : "alice" = "alice".
Proof.
  apply (get_session_file_inj "alice" "alice"). reflexivity.
Defined.

(** *** What depends on the files on disk *)

Lemma file_blind_ret {A} (a : A) : file_blind (ret a).
Proof. intros st1 st2 H. split; [reflexivity | exact H]. Qed.

Lemma file_blind_raise {A} (e : exn) : file_blind (@raise A e).
Proof. intros st1 st2 H. split; [reflexivity | exact H]. Qed.

Lemma file_blind_of_outcome {A} (r : Outcome A) : file_blind (of_outcome r).
Proof. intros st1 st2 H. split; [reflexivity | exact H]. Qed.

Lemma file_blind_print line : file_blind (print line).
Proof.
  intros st1 st2 (Hc & Ho & He & Ht). split; [reflexivity|].
  repeat split; cbn; congruence.
Qed.

Lemma file_blind_print_stderr line : file_blind (print_stderr line).
Proof.
  intros st1 st2 (Hc & Ho & He & Ht). split; [reflexivity|].
  repeat split; cbn; congruence.
Qed.

Lemma file_blind_log ev : file_blind (log ev).
Proof.
  intros st1 st2 (Hc & Ho & He & Ht). split; [reflexivity|].
  repeat split; cbn; congruence.
Qed.

Lemma file_blind_on_context {A} (f : Context -> Outcome A * Context) :
  file_blind (on_context f).
Proof.
  intros st1 st2 (Hc & Ho & He & Ht). unfold on_context. rewrite Hc.
  destruct (f (context st2)) as [r c]. split; [reflexivity|].
  repeat split; cbn; congruence.
Qed.

Lemma file_blind_read_context {A} (f : Context -> Outcome A) :
  file_blind (read_context f).
Proof.
  intros st1 st2 H. unfold read_context. destruct H as (Hc & H).
  rewrite Hc. split; [reflexivity|]. split; assumption.
Qed.

Lemma file_blind_bind {A B} (m : M A) (k : A -> M B) :
  file_blind m -> (forall a, file_blind (k a)) -> file_blind (bind m k).
Proof.
  intros Hm Hk st1 st2 H. unfold bind.
  destruct (Hm st1 st2 H) as [Hr Hs].
  destruct (m st1) as [[a1|e1] s1], (m st2) as [[a2|e2] s2];
    cbn [fst snd] in Hr, Hs; try discriminate.
  - injection Hr as <-. exact (Hk a1 s1 s2 Hs).
  - injection Hr as <-. split; [reflexivity | exact Hs].
Qed.

Lemma file_blind_try_except {A} (body : M A) clauses :
  file_blind body ->
  (forall e handler, clauses e = Some handler -> file_blind handler) ->
  file_blind (try_except body clauses).
Proof.
  intros Hm Hc st1 st2 H. unfold try_except.
  destruct (Hm st1 st2 H) as [Hr Hs].
  destruct (body st1) as [[a1|e1] s1], (body st2) as [[a2|e2] s2];
    cbn [fst snd] in Hr, Hs; try discriminate.
  - split; assumption.
  - injection Hr as <-. destruct (clauses e1) as [handler|] eqn:Hcl.
    + exact (Hc e1 handler Hcl s1 s2 Hs).
    + split; [reflexivity | exact Hs].
Qed.

Lemma file_blind_bind_raise {A B} (e : exn) (k : A -> M B) :
  file_blind (bind (raise e) k).
Proof. intros st1 st2 H. split; [reflexivity | exact H]. Qed.

Create HintDb blind.
#[local] Hint Resolve file_blind_ret file_blind_raise file_blind_of_outcome
  file_blind_print file_blind_print_stderr file_blind_log
  file_blind_on_context file_blind_read_context : blind.

(** Decomposes a goal [file_blind m] along the structure of [m]. *)
Ltac blind :=
  repeat match goal with
    | |- forall _, _ => intro
    | H : Some _ = Some _ |- _ => injection H as <-
    | H : None = Some _ |- _ => discriminate H
    | H : (if ?b then _ else _) = Some _ |- _ => destruct b
    | |- file_blind (bind (raise _) _) => apply file_blind_bind_raise
    | |- file_blind (bind (ret ?a) ?k) => change (file_blind (k a)); cbv beta
    | |- file_blind (bind _ _) => apply file_blind_bind
    | |- file_blind (try_except _ _) => apply file_blind_try_except
    | |- file_blind (if ?b then _ else _) => destruct b
    | |- file_blind (match ?x with _ => _ end) => destruct x
    | |- file_blind _ => solve [auto with blind]
    end.

Lemma file_blind_methods E :
  (forall u p, file_blind (InstagramLoader.login E u p))
  /\ (forall b c, file_blind (InstagramLoader.load_session_from_browser E b c))
  /\ (forall n f, file_blind (InstagramLoader.download_profile E n f))
  /\ (forall h m, file_blind (InstagramLoader.download_hashtag E h m))
  /\ (forall n, file_blind (InstagramLoader.download_stories E n))
  /\ file_blind (InstagramLoader.close E).
Proof.
  split; [|split; [|split; [|split; [|split]]]];
    unfold InstagramLoader.login, InstagramLoader.load_session_from_browser,
      InstagramLoader._get_cookies_from_browser,
      InstagramLoader.update_cookies, InstagramLoader.set_username,
      InstagramLoader.download_profile, InstagramLoader.download_hashtag,
      InstagramLoader.download_stories, InstagramLoader.close;
    blind.
Qed.

(** X8.  [/reattempt_login] never looks for a stored session: served in two
    states that differ at most in the files on disk, a request gets the same
    outcome, and the context, the two streams and the log of library calls
    end up the same. *)
Theorem reattempt_login_ignores_files
    (E : Externals) (data : gmap string pyval) :
  file_blind (handle E r_reattempt_login (JObject data)).
Proof.
  destruct (file_blind_methods E) as (Hl & _).
  unfold handle, serve, reattempt_login, loader, InstagramLoader.new, getattr.
  cbn [attr_login attr_save_session_to_file class_name].
  blind.
Qed.

(** X9.  [/login] reads the files on disk only to see whether the session
    file of the user name in the request exists: served in two states that
    differ at most in their files and that agree on the existence of that one
    path, the request gets the same outcome, and the context, the streams
    and the log of library calls end up the same. *)
Theorem login_reads_one_path
    (E : Externals) (data : gmap string pyval) (st1 st2 : State) :
  agree st1 st2 ->
  (get_session_file (get data "username") ∈ files st1
   <-> get_session_file (get data "username") ∈ files st2) ->
  fst (serve E r_login data st1) = fst (serve E r_login data st2)
  /\ agree (snd (serve E r_login data st1)) (snd (serve E r_login data st2)).
Proof.
  intros Hagree Hpath.
  destruct (negb (truthy (get data "username"))
            || negb (truthy (get data "password"))) eqn:Hreq.
  { unfold serve, login. rewrite Hreq. split; [reflexivity | exact Hagree]. }
  apply orb_false_elim in Hreq as [Hu Hp]. apply negb_false_iff in Hu, Hp.
  rewrite !(login_route_cases E data _ Hu Hp).
  destruct (file_blind_methods E) as (Hl & _).
  assert (agree (after_reuse_attempt (get data "username") st1)
                (after_reuse_attempt (get data "username") st2)) as Hafter.
  { unfold after_reuse_attempt.
    rewrite (bool_decide_ext _ _ Hpath).
    destruct (bool_decide _); [|exact Hagree].
    destruct Hagree as (Hc & Ho & He & Ht).
    repeat split; cbn; congruence. }
  destruct (Hl (get data "username") (get data "password") _ _ Hafter)
    as [Hr Hs].
  unfold login_response.
  destruct (InstagramLoader.login E _ _ (after_reuse_attempt _ st1))
    as [[[|]|e1] s1],
    (InstagramLoader.login E _ _ (after_reuse_attempt _ st2))
    as [[[|]|e2] s2]; cbn [fst snd] in Hr, Hs; try discriminate;
    try (injection Hr as <-); split; solve [reflexivity | exact Hs].
Qed.

Lemma login_reads_one_path_witness :
  fst (serve (demo true) r_login (credentials "alice" "wrong")
         (fresh {[ "sessions/bob.session" ]}))
  = fst (serve (demo true) r_login (credentials "alice" "wrong") (fresh ∅)).
Proof.
  apply (login_reads_one_path (demo true) (credentials "alice" "wrong")
           (fresh {[ "sessions/bob.session" ]}) (fresh ∅)).
  - repeat split.
  - split; intros H; apply (bool_decide_eq_true_2 _) in H;
      vm_compute in H; discriminate.
Defined.

(** *** Incomplete requests on the other routes *)

(** X6.  A request whose body is a JSON object is answered with status code
    400 and the message naming the missing field when it goes to
    [/load_session_from_browser] without user name or browser name, to
    [/download_profile] or [/download_stories] without profile name, or to
    [/download_hashtag] without hashtag; the process state is as before, so
    no library call is made.  A field counts as missing when it is absent,
    null, empty, zero or false. *)
Theorem incomplete_requests_rejected
    (E : Externals) (data : gmap string pyval) (st : State) :
  (truthy (get data "username") = false
   \/ truthy (get data "browser") = false ->
   handle E r_load_session_from_browser (JObject data) st
   = (Ret (MkResponse "failed" "Username and browser name are required." 400),
      st))
  /\ (truthy (get data "profile_name") = false ->
      handle E r_download_profile (JObject data) st
      = (Ret (MkResponse "failed" "Profile name is required." 400), st)
      /\ handle E r_download_stories (JObject data) st
         = (Ret (MkResponse "failed" "Profile name is required." 400), st))
  /\ (truthy (get data "hashtag") = false ->
      handle E r_download_hashtag (JObject data) st
      = (Ret (MkResponse "failed" "Hashtag is required." 400), st)).
Proof.
  unfold handle, serve, load_session_from_browser, download_profile,
    download_stories, download_hashtag.
  split; [|split].
  - intros H.
    assert (negb (truthy (get data "username"))
            || negb (truthy (get data "browser")) = true) as ->.
    { destruct H as [-> | ->]; [reflexivity | apply orb_true_r]. }
    reflexivity.
  - intros ->. split; reflexivity.
  - intros ->. reflexivity.
Qed.

Lemma incomplete_requests_rejected_witness :
  handle (demo true) r_download_hashtag
    (JObject (<[ "hashtag" := PStr "" ]>
                (<[ "max_count" := PNum true "5" ]> ∅)))
    (fresh ∅)
  = (Ret (MkResponse "failed" "Hashtag is required." 400), fresh ∅).
Proof.
  apply (incomplete_requests_rejected (demo true)
           (<[ "hashtag" := PStr "" ]> (<[ "max_count" := PNum true "5" ]> ∅))
           (fresh ∅)).
  reflexivity.
Defined.

(** *** Rejected credentials *)

(** X7.  When the request carries both fields and the library's login call
    raises one of the three login errors, [/login] and [/reattempt_login]
    answer with status code 401, each with its own message.  The library was
    called once, with the user name and the password of the request; the
    context is as that call left it, and the files are as before. *)
Theorem rejected_credentials
    (E : Externals) (data : gmap string pyval) (st : State)
    (e : exn) (c : Context) :
  let username := get data "username" in
  let password := get data "password" in
  truthy username = true -> truthy password = true ->
  Instaloader_login E username password (context st) = (Raise e, c) ->
  matches E e [BadCredentialsException; TwoFactorAuthRequiredException;
               LoginException] = true ->
  (fst (serve E r_login data st)
   = Ret (MkResponse "failed" "Login failed. Check your credentials." 401)
   /\ fst (serve E r_reattempt_login data st)
      = Ret (MkResponse "failed" "Re-login failed. Check your credentials."
                        401))
  /\ forall r, r = r_login \/ r = r_reattempt_login ->
       let st' := snd (serve E r data st) in
       trace st' = (trace st ++ [CallLogin username password])%list
       /\ context st' = c /\ files st' = files st.
Proof.
  intros username password Hu Hp Hlib Hm.
  rewrite (login_route_cases E data st Hu Hp).
  rewrite (reattempt_login_route_cases E data st Hu Hp).
  rewrite !login_cases. fold username password.
  assert (context (after_reuse_attempt username st) = context st
          /\ files (after_reuse_attempt username st) = files st
          /\ trace (after_reuse_attempt username st) = trace st)
    as (Hc & Hf & Ht).
  { unfold after_reuse_attempt. destruct (bool_decide _); repeat split. }
  rewrite Hc, Hlib. cbn zeta. rewrite Hm. cbn [login_response fst].
  split; [split; reflexivity|].
  intros r [-> | ->]; cbn zeta.
  - rewrite (login_route_cases E data st Hu Hp), login_cases.
    fold username password. rewrite Hc, Hlib. cbn zeta. rewrite Hm.
    cbn. rewrite Ht, Hf. auto.
  - rewrite (reattempt_login_route_cases E data st Hu Hp), login_cases.
    fold username password. rewrite Hlib. cbn zeta. rewrite Hm.
    cbn. auto.
Qed.

Lemma rejected_credentials_witness :
  fst (serve (demo true) r_login (credentials "alice" "wrong") (fresh ∅))
  = Ret (MkResponse "failed" "Login failed. Check your credentials." 401)
  /\ fst (serve (demo true) r_reattempt_login (credentials "alice" "wrong")
            (fresh ∅))
     = Ret (MkResponse "failed" "Re-login failed. Check your credentials."
                       401).
Proof.
  apply (rejected_credentials (demo true) (credentials "alice" "wrong")
           (fresh ∅)
           (MkExn BadCredentialsException "Login error: Wrong password.")
           (MkContext PNone ∅)); reflexivity.
Defined.

(** *** Downloading a hashtag, and stories *)

(** The method [download_hashtag], case by case. *)
Lemma download_hashtag_cases E hashtag max_count st :
  InstagramLoader.download_hashtag E hashtag max_count st =
  let st1 := add_trace (CallDownloadHashtag hashtag max_count) st in
  match Instaloader_download_hashtag E hashtag max_count (context st) with
  | (Ret _, c) => (Ret true, set_context c st1)
  | (Raise e, c) =>
      reported E [InstaloaderException] "Failed to download hashtag: " e
               (set_context c st1)
  end.
Proof.
  unfold InstagramLoader.download_hashtag, reported. run.
  cbn [context add_trace].
  destruct (Instaloader_download_hashtag E hashtag max_count (context st))
    as [[[]|e] c]; [reflexivity|].
  destruct (matches E e _); reflexivity.
Qed.

(** The method [download_stories], case by case. *)
Lemma download_stories_cases E name st :
  InstagramLoader.download_stories E name st =
  let st1 := add_trace (CallProfileFromUsername name) st in
  match Profile_from_username E name (context st) with
  | (Raise e, c1) =>
      reported E [InstaloaderException] "Failed to download stories: " e
               (set_context c1 st1)
  | (Ret p, c1) =>
      let st2 := add_trace (CallDownloadStories [p]) (set_context c1 st1) in
      match Instaloader_download_stories E [p] c1 with
      | (Ret _, c2) => (Ret true, set_context c2 st2)
      | (Raise e, c2) =>
          reported E [InstaloaderException] "Failed to download stories: " e
                   (set_context c2 st2)
      end
  end.
Proof.
  unfold InstagramLoader.download_stories, reported. run.
  cbn [context add_trace].
  destruct (Profile_from_username E name (context st)) as [[p|e] c1].
  - cbn [context set_context add_trace].
    destruct (Instaloader_download_stories E [p] c1) as [[[]|e] c2];
      [reflexivity|].
    destruct (matches E e _); reflexivity.
  - destruct (matches E e _); reflexivity.
Qed.

(** X10.  A request to [/download_hashtag] that names a hashtag makes one
    library call, with the hashtag and with [max_count] as the request
    holds it ([None] when the field is absent), and no other; the answer is
    status code 200 when the call returns, and status code 400, with the
    cause on the error stream, when it raises an [InstaloaderException]. *)
Theorem download_hashtag_outcome
    (E : Externals) (data : gmap string pyval) (st : State) :
  let hashtag := get data "hashtag" in
  let max_count := get data "max_count" in
  let st1 := add_trace (CallDownloadHashtag hashtag max_count) st in
  truthy hashtag = true ->
  (forall c,
     Instaloader_download_hashtag E hashtag max_count (context st)
     = (Ret tt, c) ->
     serve E r_download_hashtag data st
     = (Ret (MkResponse "success"
               ("Downloaded posts from #" +:+ py_str hashtag +:+ ".") 200),
        set_context c st1))
  /\ (forall e c,
        Instaloader_download_hashtag E hashtag max_count (context st)
        = (Raise e, c) ->
        matches E e [InstaloaderException] = true ->
        serve E r_download_hashtag data st
        = (Ret (MkResponse "failed"
                  ("Failed to download posts from #" +:+ py_str hashtag
                   +:+ ".") 400),
           add_stderr ("Failed to download hashtag: " +:+ exn_text e)
                      (set_context c st1)))
  /\ (data !! "max_count" = None -> max_count = PNone).
Proof.
  intros hashtag max_count st1 Hh.
  unfold serve, download_hashtag. fold hashtag max_count. rewrite Hh.
  cbn [negb]. run. rewrite download_hashtag_cases. cbn zeta.
  split; [|split].
  - intros c ->. reflexivity.
  - intros e c -> Hm. unfold reported. rewrite Hm. reflexivity.
  - intros Hnone. unfold max_count, get. rewrite Hnone. reflexivity.
Qed.

Lemma download_hashtag_outcome_witness :
  serve (demo true) r_download_hashtag (<[ "hashtag" := PStr "cats" ]> ∅)
        (fresh ∅)
  = (Ret (MkResponse "success" "Downloaded posts from #cats." 200),
     set_context (MkContext PNone ∅)
       (add_trace (CallDownloadHashtag (PStr "cats") PNone) (fresh ∅))).
Proof.
  destruct (download_hashtag_outcome (demo true)
              (<[ "hashtag" := PStr "cats" ]> ∅) (fresh ∅))
    as (Hok & _); [vm_compute; reflexivity|].
  apply (Hok (MkContext PNone ∅)). vm_compute. reflexivity.
Defined.

(** X11.  A request to [/download_stories] that names a profile first has
    the library resolve the profile.  When the resolution raises an
    [InstaloaderException], no download is attempted and the answer is
    status code 400; when it returns a profile, the stories of that one
    profile are downloaded, and the answer is status code 200 if the
    download returns. *)
Theorem download_stories_outcome
    (E : Externals) (data : gmap string pyval) (st : State) :
  let name := get data "profile_name" in
  let st1 := add_trace (CallProfileFromUsername name) st in
  truthy name = true ->
  (forall e c,
     Profile_from_username E name (context st) = (Raise e, c) ->
     matches E e [InstaloaderException] = true ->
     serve E r_download_stories data st
     = (Ret (MkResponse "failed"
               ("Failed to download stories from " +:+ py_str name +:+ ".")
               400),
        add_stderr ("Failed to download stories: " +:+ exn_text e)
                   (set_context c st1)))
  /\ (forall p c1 c2,
        Profile_from_username E name (context st) = (Ret p, c1) ->
        Instaloader_download_stories E [p] c1 = (Ret tt, c2) ->
        serve E r_download_stories data st
        = (Ret (MkResponse "success"
                  ("Downloaded stories from " +:+ py_str name +:+ ".") 200),
           set_context c2
             (add_trace (CallDownloadStories [p]) (set_context c1 st1)))).
Proof.
  intros name st1 Hn.
  unfold serve, download_stories. fold name. rewrite Hn.
  cbn [negb]. run. rewrite download_stories_cases. cbn zeta.
  split.
  - intros e c -> Hm. unfold reported. rewrite Hm. reflexivity.
  - intros p c1 c2 -> ->. reflexivity.
Qed.

Lemma download_stories_outcome_witness :
  serve (demo true) r_download_stories (<[ "profile_name" := PStr "zed" ]> ∅)
        (fresh ∅)
  = (Ret (MkResponse "failed" "Failed to download stories from zed." 400),
     add_stderr "Failed to download stories: Profile zed does not exist."
       (set_context (MkContext PNone ∅)
          (add_trace (CallProfileFromUsername (PStr "zed")) (fresh ∅)))).
Proof.
  destruct (download_stories_outcome (demo true)
              (<[ "profile_name" := PStr "zed" ]> ∅) (fresh ∅))
    as (Hfail & _); [vm_compute; reflexivity|].
  apply (Hfail (MkExn ProfileNotExistsException
                  "Profile zed does not exist.") (MkContext PNone ∅));
    vm_compute; reflexivity.
Defined.

(** X12.  In [download_profile] the clause for [ProfileNotExistsException]
    comes first: an exception of that class raised by the resolution of the
    profile is reported as [Profile not found: ], also when the class
    derives from [InstaloaderException]; any other [InstaloaderException]
    is reported as [Failed to download profile: ].  In both cases the
    method returns [False] and the download is not attempted. *)
Theorem download_profile_resolution_fails
    (E : Externals) (name : pyval) (flags : Flags) (st : State)
    (e : exn) (c : Context) :
  Profile_from_username E name (context st) = (Raise e, c) ->
  let st1 := set_context c (add_trace (CallProfileFromUsername name) st) in
  (isinstance E e ProfileNotExistsException = true ->
   InstagramLoader.download_profile E name flags st
   = (Ret false, add_stderr ("Profile not found: " +:+ exn_text e) st1))
  /\ (isinstance E e ProfileNotExistsException = false ->
      isinstance E e InstaloaderException = true ->
      InstagramLoader.download_profile E name flags st
      = (Ret false,
         add_stderr ("Failed to download profile: " +:+ exn_text e) st1)).
Proof.
  intros Hlib st1. rewrite download_profile_cases, Hlib. cbn zeta.
  unfold download_failure, matches. cbn [existsb].
  rewrite !orb_false_r. split.
  - intros ->. reflexivity.
  - intros -> ->. reflexivity.
Qed.

Lemma download_profile_resolution_fails_witness :
  InstagramLoader.download_profile (demo true) (PStr "zed")
    (flags_of ∅) (fresh ∅)
  = (Ret false,
     add_stderr "Profile not found: Profile zed does not exist."
       (set_context (MkContext PNone ∅)
          (add_trace (CallProfileFromUsername (PStr "zed")) (fresh ∅)))).
Proof.
  apply (download_profile_resolution_fails (demo true) (PStr "zed")
           (flags_of ∅) (fresh ∅)
           (MkExn ProfileNotExistsException "Profile zed does not exist.")
           (MkContext PNone ∅)); reflexivity.
Defined.

(** *** Diagnostics, and the order of library calls *)

Lemma reported_stderr E classes label e st :
  match fst (reported E classes label e st) with
  | Ret false =>
      exists line,
        stderr (snd (reported E classes label e st))
        = (stderr st ++ [line])%list
  | _ => stderr (snd (reported E classes label e st)) = stderr st
  end.
Proof.
  unfold reported. destruct (matches E e classes); cbn; eauto.
Qed.

(** X13.  Each of the five methods of [InstagramLoader] that return a flag
    reports every failure it swallows: when the method returns [False], its
    own [print] calls have written exactly one line to the error stream
    during the call, and when it returns [True] or lets an exception go on
    to the caller they have written none.  What the library itself prints
    is outside the model. *)
Theorem methods_report_failures (E : Externals) :
  (forall u p, reports_failures (InstagramLoader.login E u p))
  /\ (forall b c,
        reports_failures (InstagramLoader.load_session_from_browser E b c))
  /\ (forall n f, reports_failures (InstagramLoader.download_profile E n f))
  /\ (forall h m, reports_failures (InstagramLoader.download_hashtag E h m))
  /\ (forall n, reports_failures (InstagramLoader.download_stories E n)).
Proof.
  split; [|split; [|split; [|split]]].
  - intros u p st. rewrite login_cases. cbn zeta.
    destruct (Instaloader_login E u p (context st)) as [[[]|e] c];
      [reflexivity|].
    apply (reported_stderr E _ "Login failed: " e
             (set_context c (add_trace (CallLogin u p) st))).
  - intros b c st. destruct (bc3_library E) eqn:Hbc3.
    2:{ destruct (import_without_bc3 E b c ∅ st Hbc3) as [-> _].
        cbn. eauto. }
    rewrite (load_session_from_browser_cases E _ _ st Hbc3).
    destruct (InstagramLoader._get_cookies_from_browser E b c st)
      as [[cookies|e] st1] eqn:Hget;
      apply get_cookies_frame in Hget as (_ & _ & _ & He).
    + cbn zeta. destruct (Instaloader_test_login E _) as [u|e].
      * destruct (truthy u); cbn; rewrite He; eauto.
      * pose proof (reported_stderr E [Exception] "Failed to load cookies: "
                      e (add_trace CallTestLogin
                           (set_context (install cookies (context st))
                              (add_trace (CallUpdateCookies cookies) st1))))
          as H.
        unfold reported in H. unfold import_failure.
        cbn [stderr add_trace set_context] in H. rewrite He in H. exact H.
    + pose proof (reported_stderr E [Exception] "Failed to load cookies: "
                    e st1) as H.
      unfold reported in H. unfold import_failure. rewrite He in H. exact H.
  - intros n f st. rewrite download_profile_cases. cbn zeta.
    assert (forall e s,
              match fst (download_failure E e s) with
              | Ret false =>
                  exists line,
                    stderr (snd (download_failure E e s))
                    = (stderr s ++ [line])%list
              | _ => stderr (snd (download_failure E e s)) = stderr s
              end) as Hfail.
    { intros e s. unfold download_failure.
      destruct (matches E e [ProfileNotExistsException]); [cbn; eauto|].
      destruct (matches E e [InstaloaderException]); cbn; eauto. }
    destruct (Profile_from_username E n (context st)) as [[p|e] c1].
    + destruct (Instaloader_download_profile E p f c1) as [[[]|e] c2];
        [reflexivity|].
      exact (Hfail e (set_context c2
                        (add_trace (CallDownloadProfile p f)
                           (set_context c1
                              (add_trace (CallProfileFromUsername n) st))))).
    + exact (Hfail e (set_context c1
                        (add_trace (CallProfileFromUsername n) st))).
  - intros h m st. rewrite download_hashtag_cases. cbn zeta.
    destruct (Instaloader_download_hashtag E h m (context st))
      as [[[]|e] c]; [reflexivity|].
    apply (reported_stderr E _ "Failed to download hashtag: " e
             (set_context c (add_trace (CallDownloadHashtag h m) st))).
  - intros n st. rewrite download_stories_cases. cbn zeta.
    destruct (Profile_from_username E n (context st)) as [[p|e] c1].
    + destruct (Instaloader_download_stories E [p] c1) as [[[]|e] c2];
        [reflexivity|].
      apply (reported_stderr E _ "Failed to download stories: " e
               (set_context c2
                  (add_trace (CallDownloadStories [p])
                     (set_context c1
                        (add_trace (CallProfileFromUsername n) st))))).
    + apply (reported_stderr E _ "Failed to download stories: " e
               (set_context c1 (add_trace (CallProfileFromUsername n) st))).
Qed.

(** X14.  An import makes its library calls in a fixed order and never logs
    in with a password: it makes no call at all (no library, or a browser
    that is not in the table), or calls the extraction routine of the
    browser and stops, or calls the routine, installs a non-empty set of
    cookies and then runs the probe.  The probe is never run without
    cookies installed just before. *)
Theorem import_call_order
    (E : Externals) (browser cookiefile : pyval) (st : State) :
  exists calls,
    trace (snd (InstagramLoader.load_session_from_browser
                  E browser cookiefile st))
    = (trace st ++ calls)%list
    /\ import_calls cookiefile calls.
Proof.
  destruct (bc3_library E) eqn:Hbc3.
  2:{ destruct (import_without_bc3 E browser cookiefile ∅ st Hbc3)
        as [-> _].
      exists []. split; [cbn; rewrite app_nil_r; reflexivity | left; reflexivity]. }
  rewrite (load_session_from_browser_cases E _ _ st Hbc3).
  unfold InstagramLoader._get_cookies_from_browser, import_failure. run.
  destruct (InstagramLoader.lookup_browser browser) as [routine|].
  2:{ exists []. split; [|left; reflexivity].
      destruct (matches E _ [Exception]); cbn; rewrite app_nil_r;
        reflexivity. }
  destruct (browser_cookie3 E routine cookiefile) as [l|e].
  2:{ exists [CallBrowserCookie3 routine cookiefile].
      split; [|right; left; eauto].
      destruct (matches E _ [Exception]); reflexivity. }
  destruct (bool_decide (InstagramLoader.instagram_cookies l = ∅)) eqn:Hem.
  { exists [CallBrowserCookie3 routine cookiefile].
    split; [|right; left; eauto].
    destruct (matches E _ [Exception]); reflexivity. }
  apply bool_decide_eq_false in Hem.
  exists [CallBrowserCookie3 routine cookiefile;
          CallUpdateCookies (InstagramLoader.instagram_cookies l);
          CallTestLogin].
  split; [|right; right; eauto].
  cbn [context add_trace set_context].
  destruct (Instaloader_test_login E _) as [u|e];
    [destruct (truthy u) | destruct (matches E e [Exception])];
    cbn; rewrite <- !app_assoc; reflexivity.
Qed.

(** *** The table of browsers *)

(** X15.  The table of [_get_cookies_from_browser] pairs each of its ten
    names with a routine of its own: no two names share a routine, every
    routine has a name, and a value that is not a string is in the table
    under no name. *)
Theorem supported_browsers_one_to_one :
  (forall a b routine,
     InstagramLoader.supported_browsers !! a = Some routine ->
     InstagramLoader.supported_browsers !! b = Some routine -> a = b)
  /\ (forall routine,
        exists name, InstagramLoader.supported_browsers !! name = Some routine)
  /\ size InstagramLoader.supported_browsers = 10
  /\ (forall v,
        is_Some (InstagramLoader.lookup_browser v) -> exists s, v = PStr s).
Proof.
  split; [|split; [|split]].
  - intros a b routine Ha Hb.
    unfold InstagramLoader.supported_browsers in *.
    apply elem_of_list_to_map_2 in Ha, Hb.
    rewrite !elem_of_cons, elem_of_nil in Ha, Hb.
    repeat match goal with
           | H : _ \/ _ |- _ => destruct H as [H|H]
           end; try contradiction; simplify_eq; reflexivity.
  - intros [];
      [ exists "brave" | exists "chrome" | exists "chromium" | exists "edge"
      | exists "firefox" | exists "librewolf" | exists "opera"
      | exists "opera_gx" | exists "safari" | exists "vivaldi" ];
      vm_compute; reflexivity.
  - vm_compute. reflexivity.
  - intros [| b | nz t | s] [r Hr]; try discriminate. eauto.
Qed.

Lemma supported_browsers_one_to_one_witness : "opera_gx" = "opera_gx".
Proof.
  apply (proj1 supported_browsers_one_to_one "opera_gx" "opera_gx"
           bc3_opera_gx); reflexivity.
Defined.

(** *** Which errors reach the transport layer, both ways *)

(** What a route makes of an exception raised by one of its library
    calls. *)
Lemma library_failure_outcome E r data st e :
  complete r data = true ->
  library_raises E r data st e ->
  if matches E e (converted_classes r)
  then exists msg,
         fst (serve E r data st)
         = Ret (MkResponse "failed" msg (failure_code r))
  else fst (serve E r data st) = Raise e.
Proof.
  assert (context (after_reuse_attempt (get data "username") st) = context st)
    as Hafter.
  { unfold after_reuse_attempt. destruct (bool_decide _); reflexivity. }
  destruct r; cbn [complete library_raises converted_classes failure_code].
  - intros [Hu Hp]%andb_prop [c Hlib].
    rewrite (login_route_cases E data st Hu Hp), login_cases, Hafter, Hlib.
    cbn zeta. destruct (matches E e _); cbn; eauto.
  - intros [Hu Hp]%andb_prop [c Hlib].
    rewrite (reattempt_login_route_cases E data st Hu Hp), login_cases, Hlib.
    cbn zeta. destruct (matches E e _); cbn; eauto.
  - intros [Hu Hb]%andb_prop (Hbc3 & routine & Hlook & Hlib).
    unfold serve.
    rewrite (import_route_cases (loader E) _ data st Hu Hb eq_refl).
    rewrite (load_session_from_browser_cases E _ _ st Hbc3).
    unfold InstagramLoader._get_cookies_from_browser. rewrite Hlook. run.
    unfold import_failure.
    destruct Hlib as [-> | (l & -> & Hne & Hprobe)].
    + destruct (matches E e [Exception]); cbn; eauto.
    + rewrite bool_decide_eq_false_2 by exact Hne.
      cbn [context add_trace]. fold (install
        (InstagramLoader.instagram_cookies l) (context st)).
      rewrite Hprobe.
      destruct (matches E e [Exception]); cbn; eauto.
  - intros Hn Hlib.
    rewrite (download_profile_route_cases E data st Hn),
      download_profile_cases.
    cbn zeta. unfold download_failure, matches. cbn [existsb].
    rewrite !orb_false_r.
    destruct Hlib as [[c ->] | (p & c1 & c2 & -> & ->)];
      destruct (isinstance E e ProfileNotExistsException);
      cbn; eauto;
      destruct (isinstance E e InstaloaderException); cbn; eauto.
  - intros Hh [c Hlib]. unfold serve, download_hashtag. rewrite Hh.
    cbn [negb]. run. rewrite download_hashtag_cases, Hlib. cbn zeta.
    unfold reported. destruct (matches E e _); cbn; eauto.
  - intros Hn Hlib. unfold serve, download_stories. rewrite Hn.
    cbn [negb]. run. rewrite download_stories_cases. cbn zeta.
    unfold reported.
    destruct Hlib as [[c ->] | (p & c1 & c2 & -> & ->)];
      destruct (matches E e _); cbn; eauto.
  - intros _ [c Hlib]. unfold serve, close. run.
    unfold InstagramLoader.close. run.
    cbn [context add_trace]. rewrite Hlib. reflexivity.
Qed.

(** C1, amended.  For a request whose body is a JSON object: an exception
    raised by a library call of the route is turned into a response with
    status [failed] (code 401 on the two login routes, 400 on the others)
    exactly when it is an instance of a class named by the [except] clause
    around that call: [BadCredentialsException],
    [TwoFactorAuthRequiredException] and [LoginException] on the two login
    routes, [Exception] on [/load_session_from_browser],
    [ProfileNotExistsException] and [InstaloaderException] on
    [/download_profile], [InstaloaderException] on the two other download
    routes.  An exception of any other class, and every exception raised
    by the library's [close], reaches the transport layer.  Conversely an
    exception reaches the transport layer only if it is of no class named by
    the clause of the route, the one other case being the exception raised
    on [/load_session_from_browser] after an import that succeeded.
    Whenever a handler returns, the response has status [success] with code
    200 or status [failed] with code 400 or 401. *)
Theorem escapes_only_outside_clauses
    (E : Externals) (r : route) (data : gmap string pyval) (st : State) :
  (forall e,
     complete r data = true ->
     library_raises E r data st e ->
     if matches E e (converted_classes r)
     then exists msg,
            fst (handle E r (JObject data) st)
            = Ret (MkResponse "failed" msg (failure_code r))
     else fst (handle E r (JObject data) st) = Raise e)
  /\ (forall e st',
        handle E r (JObject data) st = (Raise e, st') ->
        matches E e (converted_classes r) = false
        \/ (r = r_load_session_from_browser
            /\ e = no_attribute "InstagramLoader" "save_session_to_file"))
  /\ (forall resp st',
        handle E r (JObject data) st = (Ret resp, st') ->
        (status resp = "success" /\ status_code resp = 200)
        \/ (status resp = "failed"
            /\ (status_code resp = 400 \/ status_code resp = 401))).
Proof.
  split; [|split].
  - intros e. apply library_failure_outcome.
  - intros e st'. apply (only_unlisted_escape E r data st st').
  - intros resp st'. apply (only_unlisted_escape E r data st st').
Qed.

Lemma escapes_only_outside_clauses_witness :
  fst (handle (demo true) r_login (JObject (credentials "alice" "offline"))
         (fresh ∅))
  = Raise (MkExn (OtherClass "ConnectionError") "Network is unreachable").
Proof.
  apply (proj1 (escapes_only_outside_clauses (demo true) r_login
                  (credentials "alice" "offline") (fresh ∅))
           (MkExn (OtherClass "ConnectionError") "Network is unreachable")).
  - reflexivity.
  - exists (MkContext PNone ∅). reflexivity.
Defined.
